(** * The bubbles widget of examples/designer/plugins/widgets/bubbleswidget.py

    A shallow embedding of the [Bubble] and [BubblesWidget] classes and the
    properties of their event handlers.

    Numbers.  Python floats are modelled by exact rationals ([Q]): the
    arithmetic of the handlers is kept as written, rounding is not
    modelled.  What an animation tick does to the height of a bubble
    depends on the rounding: module [Binary64] is the tick over doubles,
    and the properties of the moved height and of the bubbles dropped
    are stated on it.  Python and Qt integers are [Z].

    Toolkit.  Qt values the widget only stores and hands back (colours,
    pens, brushes) are kept as the terms that built them.  The calls the
    widget makes on its environment (signals emitted, regions scheduled for
    repaint, painter commands, accepted events) are recorded, in program
    order, in an effect log.

    Randomness.  [random.random()] is an oracle [rnd : nat -> Q]: the
    n-th value handed out by the module-level generator.  The state carries
    the number of values consumed so far. *)

From Stdlib Require Floats.
From Stdlib Require Import ZArith QArith Qpower Qround Qminmax List Bool Lia Lqa
  String.
Import ListNotations.

Local Open Scope Q_scope.

(** ** Numbers *)

Definition Qlt_bool (a b : Q) : bool := negb (Qle_bool b a).

(** Python's [min(a, b, c)]: the first minimal argument. *)
Definition py_min3 (a b c : Q) : Q :=
  let m := a in
  let m := if Qlt_bool b m then b else m in
  if Qlt_bool c m then c else m.

(** Python's [max(a, b)] on integers. *)
Definition py_max (a b : Z) : Z := if (a <? b)%Z then b else a.

(** Python's [l[:n]]. *)
Definition slice_to {A : Type} (l : list A) (n : Z) : list A :=
  if (n <? 0)%Z then firstn (Z.to_nat (Z.of_nat (List.length l) + n)) l
  else firstn (Z.to_nat n) l.

(** Python's [len]. *)
Definition len {A : Type} (l : list A) : Z := Z.of_nat (List.length l).

(** ** Qt values *)

Record QPoint := mkQPoint { ix : Z; iy : Z }.
Record QPointF := mkQPointF { fx : Q; fy : Q }.
Record QSize := mkQSize { iwidth : Z; iheight : Z }.
Record QSizeF := mkQSizeF { fwidth : Q; fheight : Q }.
(** A rectangle is its top-left corner and its size, as Qt stores [QRectF]. *)
Record QRect := mkQRect { rx : Z; ry : Z; rw : Z; rh : Z }.
Record QRectF := mkQRectF { xp : Q; yp : Q; wd : Q; ht : Q }.

Definition QPointF_of_QPoint (p : QPoint) : QPointF :=
  mkQPointF (inject_Z (ix p)) (inject_Z (iy p)).

Definition QPointF_add (p q : QPointF) : QPointF :=
  mkQPointF (fx p + fx q) (fy p + fy q).

Definition QPointF_sub (p q : QPointF) : QPointF :=
  mkQPointF (fx p - fx q) (fy p - fy q).

(** [QRectF(topLeft, size)] *)
Definition QRectF_of (p : QPointF) (s : QSizeF) : QRectF :=
  mkQRectF (fx p) (fy p) (fwidth s) (fheight s).

(** [QRectF(QRect)] *)
Definition QRectF_of_QRect (r : QRect) : QRectF :=
  mkQRectF (inject_Z (rx r)) (inject_Z (ry r))
           (inject_Z (rw r)) (inject_Z (rh r)).

(** [qRound]: to the nearest integer, halves upwards. *)
Definition qRound (d : Q) : Z := Qfloor (d + (1 # 2)).

(** [QRectF.toRect()] *)
Definition toRect (r : QRectF) : QRect :=
  mkQRect (qRound (xp r)) (qRound (yp r)) (qRound (wd r)) (qRound (ht r)).

(** [QRectF.intersects]: the two rectangles, normalised, are both non-null
    and overlap on an open interval of each axis. *)
Definition span (p s : Q) : Q * Q :=
  if Qlt_bool s 0 then (p + s, p) else (p, p + s).

Definition axis_meets (p1 s1 p2 s2 : Q) : bool :=
  let '(l1, r1) := span p1 s1 in
  let '(l2, r2) := span p2 s2 in
  if Qeq_bool l1 r1 then false
  else if Qeq_bool l2 r2 then false
  else if Qle_bool r2 l1 || Qle_bool r1 l2 then false
  else true.

Definition intersects (a b : QRectF) : bool :=
  axis_meets (xp a) (wd a) (xp b) (wd b) &&
  axis_meets (yp a) (ht a) (yp b) (ht b).

Inductive QColor : Type :=
| QColor_rgba (red green blue alpha : Q)
| QColor_named (name : string)
| darker (c : QColor) (factor : Z).

Record QRadialGradient := mkQRadialGradient {
  center : QPointF;
  gradientRadius : Q;
  focalPoint : QPointF;
  stops : list (Q * QColor)
}.

(** [QGradient.setColorAt]: the stops are kept sorted by position; a stop
    at an occupied position replaces the colour there. *)
Fixpoint insertStop (pos : Q) (c : QColor) (l : list (Q * QColor))
  : list (Q * QColor) :=
  match l with
  | [] => [(pos, c)]
  | (p, c') :: l' =>
      if Qlt_bool p pos then (p, c') :: insertStop pos c l'
      else if Qeq_bool p pos then (pos, c) :: l'
      else (pos, c) :: l
  end.

Definition setColorAt (pos : Q) (c : QColor) (g : QRadialGradient)
  : QRadialGradient :=
  if Qlt_bool 1 pos || Qlt_bool pos 0 then g
  else mkQRadialGradient (center g) (gradientRadius g) (focalPoint g)
                         (insertStop pos c (stops g)).

Inductive QBrush : Type := QBrush_of (g : QRadialGradient).
Inductive QPen : Type := QPen_of (c : QColor).

Record QTimer := mkQTimer {
  isActive : bool;
  interval : Z;
  isSingleShot : bool
}.

Definition QTimer_new : QTimer := mkQTimer false 0 false.
Definition setSingleShot (b : bool) (t : QTimer) : QTimer :=
  mkQTimer (isActive t) (interval t) b.
Definition QTimer_start (msec : Z) (t : QTimer) : QTimer :=
  mkQTimer true msec (isSingleShot t).
Definition QTimer_stop (t : QTimer) : QTimer :=
  mkQTimer false (interval t) (isSingleShot t).

Inductive MouseButton := LeftButton | RightButton | MidButton | NoButton.

Definition MouseButton_eqb (a b : MouseButton) : bool :=
  match a, b with
  | LeftButton, LeftButton | RightButton, RightButton
  | MidButton, MidButton | NoButton, NoButton => true
  | _, _ => false
  end.

Record QMouseEvent := mkQMouseEvent { button : MouseButton; pos : QPoint }.

(** ** class Bubble *)

Record Bubble := mkBubble {
  position : QPointF;
  radius : Q;
  speed : Q;
  innerColor : QColor;
  outerColor : QColor;
  brush : QBrush
}.

(** The brush [updateBrush] builds from a radius and two colours. *)
Definition gradientBrush (r : Q) (inner outer : QColor) : QBrush :=
  let gradient :=
    mkQRadialGradient (mkQPointF r r) r
                      (mkQPointF (r * (1 # 2)) (r * (1 # 2))) [] in
  let gradient := setColorAt 0 (QColor_rgba 255 255 255 255) gradient in
  let gradient := setColorAt (1 # 4) inner gradient in
  let gradient := setColorAt 1 outer gradient in
  QBrush_of gradient.

Definition updateBrush (b : Bubble) : Bubble :=
  mkBubble (position b) (radius b) (speed b) (innerColor b) (outerColor b)
           (gradientBrush (radius b) (innerColor b) (outerColor b)).

(** [Bubble.__init__] *)
Definition Bubble_init (position : QPointF) (radius speed : Q)
           (innerColor outerColor : QColor) : Bubble :=
  mkBubble position radius speed innerColor outerColor
           (gradientBrush radius innerColor outerColor).

Definition set_position (p : QPointF) (b : Bubble) : Bubble :=
  mkBubble p (radius b) (speed b) (innerColor b) (outerColor b) (brush b).

Definition set_radius (r : Q) (b : Bubble) : Bubble :=
  mkBubble (position b) r (speed b) (innerColor b) (outerColor b) (brush b).

(** The calls made on the painter, with the values of their arguments as
    the handler passes them. *)
Inductive PainterCmd : Type :=
| painter_begin
| setRenderHint_Antialiasing
| fillRect (r : QRect) (b : QBrush)
| setPen (p : QPen)
| save
| translate (dx dy : Q)
| setBrush (b : QBrush)
| drawEllipse (x y width height : Q)
| restore
| painter_end.

Definition drawBubble (b : Bubble) : list PainterCmd :=
  [ save;
    translate (fx (position b) - radius b) (fy (position b) - radius b);
    setBrush (brush b);
    drawEllipse 0 0 (2 * radius b) (2 * radius b);
    restore ].

(** The square Qt is asked to test against the region to repaint. *)
Definition boundingBox (b : Bubble) : QRectF :=
  QRectF_of (QPointF_sub (position b) (mkQPointF (radius b) (radius b)))
            (mkQSizeF (2 * radius b) (2 * radius b)).

(** The region handed to [self.update] around a bubble at rest. *)
Definition damage (b : Bubble) : QRect :=
  toRect (QRectF_of
            (QPointF_sub (position b)
                         (mkQPointF (radius b + 1) (radius b + 1)))
            (mkQSizeF (2 * radius b + 2) (2 * radius b + 2))).

(** The region handed to [self.update] around a bubble that just moved up
    by its speed. *)
Definition damage_moved (b : Bubble) : QRect :=
  toRect (QRectF_of
            (QPointF_sub (position b)
                         (mkQPointF (radius b + 1) (radius b + 1)))
            (mkQSizeF (2 * radius b + 2) (2 * radius b + 2 + speed b))).

(** ** class BubblesWidget *)

Inductive Signal : Type :=
| bubbleLeft
| bubblesRemaining (n : Z).

(** What a handler asks of its environment. *)
Inductive Effect : Type :=
| emit (s : Signal)
| update (r : QRect)
| update_all
| paint (c : PainterCmd)
| accept.

(** The attributes of a widget, the geometry Qt keeps for it, and the
    number of values drawn so far from the module-level generator. *)
Record BubblesWidget := mkBubblesWidget {
  _author : string;
  pen : QPen;
  bubbles : list Bubble;
  backgroundColor1 : QColor;
  backgroundColor2 : QColor;
  newBubble : option Bubble;
  animation_timer : QTimer;
  bubbleTimer : QTimer;
  mouseTracking : bool;
  minimumSize : QSize;
  windowTitle : string;
  width : Z;
  height : Z;
  random_state : nat
}.

Definition set_author (v : string) (s : BubblesWidget) :=
  mkBubblesWidget v (pen s) (bubbles s) (backgroundColor1 s)
    (backgroundColor2 s) (newBubble s) (animation_timer s) (bubbleTimer s)
    (mouseTracking s) (minimumSize s) (windowTitle s) (width s) (height s)
    (random_state s).
Definition set_pen (v : QPen) (s : BubblesWidget) :=
  mkBubblesWidget (_author s) v (bubbles s) (backgroundColor1 s)
    (backgroundColor2 s) (newBubble s) (animation_timer s) (bubbleTimer s)
    (mouseTracking s) (minimumSize s) (windowTitle s) (width s) (height s)
    (random_state s).
Definition set_bubbles (v : list Bubble) (s : BubblesWidget) :=
  mkBubblesWidget (_author s) (pen s) v (backgroundColor1 s)
    (backgroundColor2 s) (newBubble s) (animation_timer s) (bubbleTimer s)
    (mouseTracking s) (minimumSize s) (windowTitle s) (width s) (height s)
    (random_state s).
Definition set_backgroundColor1 (v : QColor) (s : BubblesWidget) :=
  mkBubblesWidget (_author s) (pen s) (bubbles s) v
    (backgroundColor2 s) (newBubble s) (animation_timer s) (bubbleTimer s)
    (mouseTracking s) (minimumSize s) (windowTitle s) (width s) (height s)
    (random_state s).
Definition set_backgroundColor2 (v : QColor) (s : BubblesWidget) :=
  mkBubblesWidget (_author s) (pen s) (bubbles s) (backgroundColor1 s)
    v (newBubble s) (animation_timer s) (bubbleTimer s)
    (mouseTracking s) (minimumSize s) (windowTitle s) (width s) (height s)
    (random_state s).
Definition set_newBubble (v : option Bubble) (s : BubblesWidget) :=
  mkBubblesWidget (_author s) (pen s) (bubbles s) (backgroundColor1 s)
    (backgroundColor2 s) v (animation_timer s) (bubbleTimer s)
    (mouseTracking s) (minimumSize s) (windowTitle s) (width s) (height s)
    (random_state s).
Definition set_animation_timer (v : QTimer) (s : BubblesWidget) :=
  mkBubblesWidget (_author s) (pen s) (bubbles s) (backgroundColor1 s)
    (backgroundColor2 s) (newBubble s) v (bubbleTimer s)
    (mouseTracking s) (minimumSize s) (windowTitle s) (width s) (height s)
    (random_state s).
Definition set_bubbleTimer (v : QTimer) (s : BubblesWidget) :=
  mkBubblesWidget (_author s) (pen s) (bubbles s) (backgroundColor1 s)
    (backgroundColor2 s) (newBubble s) (animation_timer s) v
    (mouseTracking s) (minimumSize s) (windowTitle s) (width s) (height s)
    (random_state s).
Definition set_random_state (v : nat) (s : BubblesWidget) :=
  mkBubblesWidget (_author s) (pen s) (bubbles s) (backgroundColor1 s)
    (backgroundColor2 s) (newBubble s) (animation_timer s) (bubbleTimer s)
    (mouseTracking s) (minimumSize s) (windowTitle s) (width s) (height s)
    v.

(** [QWidget.resize]: the requested size is brought between the minimum
    size and Qt's largest widget size. *)
Definition QWIDGETSIZE_MAX : Z := 16777215.

Definition resize (sz : QSize) (s : BubblesWidget) :=
  mkBubblesWidget (_author s) (pen s) (bubbles s) (backgroundColor1 s)
    (backgroundColor2 s) (newBubble s) (animation_timer s) (bubbleTimer s)
    (mouseTracking s) (minimumSize s) (windowTitle s)
    (Z.max (Z.min (iwidth sz) QWIDGETSIZE_MAX) (iwidth (minimumSize s)))
    (Z.max (Z.min (iheight sz) QWIDGETSIZE_MAX) (iheight (minimumSize s)))
    (random_state s).

(** [QWidget.setMinimumSize]: a widget smaller than the new minimum grows
    to it. *)
Definition setMinimumSize (sz : QSize) (s : BubblesWidget) :=
  mkBubblesWidget (_author s) (pen s) (bubbles s) (backgroundColor1 s)
    (backgroundColor2 s) (newBubble s) (animation_timer s) (bubbleTimer s)
    (mouseTracking s) sz (windowTitle s)
    (Z.max (width s) (iwidth sz)) (Z.max (height s) (iheight sz))
    (random_state s).

Definition setMouseTracking (v : bool) (s : BubblesWidget) :=
  mkBubblesWidget (_author s) (pen s) (bubbles s) (backgroundColor1 s)
    (backgroundColor2 s) (newBubble s) (animation_timer s) (bubbleTimer s)
    v (minimumSize s) (windowTitle s) (width s) (height s) (random_state s).

Definition setWindowTitle (v : string) (s : BubblesWidget) :=
  mkBubblesWidget (_author s) (pen s) (bubbles s) (backgroundColor1 s)
    (backgroundColor2 s) (newBubble s) (animation_timer s) (bubbleTimer s)
    (mouseTracking s) (minimumSize s) v (width s) (height s) (random_state s).

(** *** Handlers as state transformers with an effect log *)

Definition M (A : Type) : Type :=
  BubblesWidget -> A * BubblesWidget * list Effect.

Definition ret {A} (a : A) : M A := fun s => (a, s, []).

Definition bind {A B} (c : M A) (k : A -> M B) : M B :=
  fun s =>
    let '(a, s1, o1) := c s in
    let '(b, s2, o2) := k a s1 in
    (b, s2, o1 ++ o2).

Declare Scope handler_scope.
Delimit Scope handler_scope with handler.
Notation "x <- c ;; k" := (bind c (fun x => k))
  (at level 61, c at next level, right associativity) : handler_scope.
Notation "c ;; k" := (bind c (fun _ => k))
  (at level 61, right associativity) : handler_scope.
Local Open Scope handler_scope.

Definition gets {A} (f : BubblesWidget -> A) : M A := fun s => (f s, s, []).
Definition modify (f : BubblesWidget -> BubblesWidget) : M unit :=
  fun s => (tt, f s, []).
Definition tell (e : Effect) : M unit := fun s => (tt, s, [e]).

Definition when (b : bool) (c : M unit) : M unit := if b then c else ret tt.

(** [for x in l: acc = body(acc, x)] *)
Fixpoint foldM {A B} (body : B -> A -> M B) (acc : B) (l : list A) : M B :=
  match l with
  | [] => ret acc
  | x :: l' => acc' <- body acc x ;; foldM body acc' l'
  end.

(** [while cond: body].  The answer is [false] when the fuel ran out
    before the condition failed. *)
Fixpoint while_ (fuel : nat) (cond : M bool) (body : M unit) : M bool :=
  c <- cond ;;
  if c then
    match fuel with
    | O => ret false
    | S fuel' => body ;; while_ fuel' cond body
    end
  else ret true.

Definition state_of {A} (r : A * BubblesWidget * list Effect) : BubblesWidget :=
  snd (fst r).
Definition value_of {A} (r : A * BubblesWidget * list Effect) : A :=
  fst (fst r).
Definition log_of {A} (r : A * BubblesWidget * list Effect) : list Effect :=
  snd r.

(** The signals of a log, in order. *)
Fixpoint signals (o : list Effect) : list Signal :=
  match o with
  | [] => []
  | emit s :: o' => s :: signals o'
  | _ :: o' => signals o'
  end.


Section Handlers.

(** The values [random.random()] returns, in the order of the calls. *)
Variable rnd : nat -> Q.

Definition random_random : M Q :=
  fun s => (rnd (random_state s), set_random_state (S (random_state s)) s, []).

(** *** BaseClass *)

Definition getAuthor : M string := gets _author.
Definition setAuthor (name : string) : M unit := modify (set_author name).
Definition resetAuthor : M unit := modify (set_author "David Boddie").

(** *** BubblesWidget *)

(** The sums are exact here; over doubles they can reach 255 and 191. *)
Definition randomColor : M QColor :=
  r <- random_random ;; let red := 205 + r * 50 in
  r <- random_random ;; let green := 205 + r * 50 in
  r <- random_random ;; let blue := 205 + r * 50 in
  r <- random_random ;; let alpha := 91 + r * 100 in
  ret (QColor_rgba red green blue alpha).

(** The attributes of a widget on which [__init__] has not run yet, of
    the size Qt gave it. *)
Definition QWidget_new (sz : QSize) : BubblesWidget :=
  mkBubblesWidget "" (QPen_of (QColor_named "")) []
    (QColor_named "") (QColor_named "") None QTimer_new QTimer_new
    false (mkQSize 0 0) "" (iwidth sz) (iheight sz) 0.

(** [BubblesWidget.__init__].  The call of [random.seed()] changes which
    values the generator hands out next; the oracle is the sequence of the
    values handed out, so the call leaves no trace here.  Connecting the
    timers to [animate] and [expandBubble] is the dispatch of [handle]
    below. *)
Definition BubblesWidget_init : M unit :=
  resetAuthor ;;
  modify (set_pen (QPen_of (QColor_named "#cccccc"))) ;;
  modify (set_bubbles []) ;;
  c <- randomColor ;;
  modify (set_backgroundColor1 c) ;;
  c <- randomColor ;;
  modify (set_backgroundColor2 (darker c 150)) ;;
  modify (set_newBubble None) ;;
  modify (set_animation_timer QTimer_new) ;;
  modify (fun s => set_animation_timer
                     (setSingleShot false (animation_timer s)) s) ;;
  modify (fun s => set_animation_timer
                     (QTimer_start 25 (animation_timer s)) s) ;;
  modify (set_bubbleTimer QTimer_new) ;;
  modify (fun s => set_bubbleTimer (setSingleShot false (bubbleTimer s)) s) ;;
  modify (setMouseTracking true) ;;
  modify (setMinimumSize (mkQSize 200 200)) ;;
  modify (setWindowTitle "Bubble Maker").

(** The widget right after its construction at size [sz]. *)
Definition initial (sz : QSize) : BubblesWidget :=
  state_of (BubblesWidget_init (QWidget_new sz)).

Definition backgroundBrush (s : BubblesWidget) : QBrush :=
  let background :=
    mkQRadialGradient (QPointF_of_QPoint (mkQPoint 0 0)) 500
      (QPointF_of_QPoint (mkQPoint (width s - 1) (height s - 1))) [] in
  let background := setColorAt 0 (backgroundColor1 s) background in
  let background := setColorAt 1 (backgroundColor2 s) background in
  QBrush_of background.

Fixpoint tell_all (l : list Effect) : M unit :=
  match l with
  | [] => ret tt
  | e :: l' => tell e ;; tell_all l'
  end.

(** One round of the loop of [paintEvent]. *)
Definition paint_body (rect : QRect) (_ : unit) (bubble : Bubble) : M unit :=
  when (intersects (boundingBox bubble) (QRectF_of_QRect rect))
       (tell_all (map paint (drawBubble bubble))).

Definition paintEvent (rect : QRect) : M unit :=
  background <- gets backgroundBrush ;;
  tell (paint painter_begin) ;;
  tell (paint setRenderHint_Antialiasing) ;;
  tell (paint (fillRect rect background)) ;;
  p <- gets pen ;;
  tell (paint (setPen p)) ;;
  bs <- gets bubbles ;;
  foldM (paint_body rect) tt bs ;;
  nb <- gets newBubble ;;
  match nb with
  | Some b => tell_all (map paint (drawBubble b))
  | None => ret tt
  end ;;
  tell (paint painter_end).

Definition mousePressEvent (event : QMouseEvent) : M unit :=
  nb <- gets newBubble ;;
  if MouseButton_eqb (button event) LeftButton
     && match nb with None => true | Some _ => false end
  then
    r <- random_random ;;
    inner <- randomColor ;;
    outer <- randomColor ;;
    modify (set_newBubble
              (Some (Bubble_init (QPointF_of_QPoint (pos event)) 4
                                 (1 + r * 7) inner outer))) ;;
    modify (fun s => set_bubbleTimer (QTimer_start 50 (bubbleTimer s)) s) ;;
    tell accept
  else ret tt.

Definition mouseMoveEvent (event : QMouseEvent) : M unit :=
  nb <- gets newBubble ;;
  match nb with
  | Some b =>
      tell (update (damage b)) ;;
      let b := set_position (QPointF_of_QPoint (pos event)) b in
      modify (set_newBubble (Some b)) ;;
      tell (update (damage b))
  | None => ret tt
  end ;;
  tell accept.

Definition mouseReleaseEvent (event : QMouseEvent) : M unit :=
  nb <- gets newBubble ;;
  match nb with
  | Some b =>
      modify (fun s => set_bubbles (bubbles s ++ [b]) s) ;;
      modify (set_newBubble None) ;;
      modify (fun s => set_bubbleTimer (QTimer_stop (bubbleTimer s)) s) ;;
      n <- gets (fun s => len (bubbles s)) ;;
      tell (emit (bubblesRemaining n))
  | None => ret tt
  end ;;
  tell accept.

Definition expandBubble : M unit :=
  nb <- gets newBubble ;;
  match nb with
  | Some b =>
      wi <- gets width ;;
      he <- gets height ;;
      let b := set_radius (py_min3 (radius b + 4)
                                   (inject_Z wi / 8) (inject_Z he / 8)) b in
      modify (set_newBubble (Some b)) ;;
      tell (update (damage b)) ;;
      modify (set_newBubble (Some (updateBrush b)))
  | None => ret tt
  end.

(** One round of the loop of [animate]; [bubbles] and [left'] are the
    two local variables of the method.  The sums are exact here;
    [Binary64.animate_loop] is the loop over doubles. *)
Definition animate_body (acc : list Bubble * bool) (bubble : Bubble)
  : M (list Bubble * bool) :=
  let '(bubbles, left') := acc in
  let bubble :=
    set_position
      (QPointF_add (position bubble) (mkQPointF 0 (- speed bubble)))
      bubble in
  tell (update (damage_moved bubble)) ;;
  if Qlt_bool 0 (fy (position bubble) + radius bubble)
  then ret (bubbles ++ [bubble], left')
  else tell (emit bubbleLeft) ;; ret (bubbles, true).

Definition animate : M unit :=
  bs <- gets bubbles ;;
  r <- foldM animate_body ([], false) bs ;;
  let '(bubbles', left') := r in
  nb <- gets newBubble ;;
  match nb with
  | Some b => tell (update (damage b))
  | None => ret tt
  end ;;
  modify (set_bubbles bubbles') ;;
  when left' (n <- gets (fun s => len (bubbles s)) ;;
              tell (emit (bubblesRemaining n))).

Definition sizeHint : QSize := mkQSize 200 200.

Definition getBubbles : M Z := gets (fun s => len (bubbles s)).

(** One round of the loop of [setBubbles]. *)
Definition appendRandomBubble : M unit :=
  r <- random_random ;; wi <- gets width ;;
  let px := r * inject_Z wi in
  r <- random_random ;; he <- gets height ;;
  let py := r * inject_Z he in
  r <- random_random ;; let rad := 4 + r * 20 in
  r <- random_random ;; let spd := 1 + r * 7 in
  inner <- randomColor ;;
  outer <- randomColor ;;
  let newBubble := Bubble_init (mkQPointF px py) rad spd inner outer in
  let newBubble := updateBrush newBubble in
  modify (fun s => set_bubbles (bubbles s ++ [newBubble]) s).

(** [setBubbles]; the answer is [false], and the rest of the body is
    skipped, when [fuel] rounds did not end the loop. *)
Definition setBubbles (fuel : nat) (value : Z) : M bool :=
  let value := py_max 0 value in
  ended <- while_ fuel (n <- getBubbles ;; ret (n <? value)%Z)
                  appendRandomBubble ;;
  if ended then
    modify (fun s => set_bubbles (slice_to (bubbles s) value) s) ;;
    tell (emit (bubblesRemaining value)) ;;
    tell update_all ;;
    ret true
  else ret false.

Definition getColor1 : M QColor := gets backgroundColor1.
Definition setColor1 (value : QColor) : M unit :=
  modify (set_backgroundColor1 value) ;; tell update_all.

Definition getColor2 : M QColor := gets backgroundColor2.
Definition setColor2 (value : QColor) : M unit :=
  modify (set_backgroundColor2 value) ;; tell update_all.

Definition stop : M unit :=
  modify (fun s => set_animation_timer (QTimer_stop (animation_timer s)) s).

Definition start : M unit :=
  modify (fun s => set_animation_timer
                     (QTimer_start 25 (animation_timer s)) s).

(** *** The widget in its event loop *)

Inductive Event : Type :=
| Press (e : QMouseEvent)
| Move (e : QMouseEvent)
| Release (e : QMouseEvent)
| AnimationTick
| GrowthTick
| Paint (rect : QRect)
| Resize (sz : QSize)
| SetBubbles (fuel : nat) (value : Z)
| SetColor1 (c : QColor)
| SetColor2 (c : QColor)
| SetAuthor (name : string)
| ResetAuthor
| Stop
| Start.

(** What the event loop runs for an event.  A timer that is not running
    delivers no tick; the answer is [false] only when [setBubbles] was
    given too little fuel. *)
Definition handle (ev : Event) : M bool :=
  match ev with
  | Press e => mousePressEvent e ;; ret true
  | Move e => mouseMoveEvent e ;; ret true
  | Release e => mouseReleaseEvent e ;; ret true
  | AnimationTick =>
      t <- gets animation_timer ;;
      when (isActive t) animate ;; ret true
  | GrowthTick =>
      t <- gets bubbleTimer ;;
      when (isActive t) expandBubble ;; ret true
  | Paint rect => paintEvent rect ;; ret true
  | Resize sz => modify (resize sz) ;; ret true
  | SetBubbles fuel value => setBubbles fuel value
  | SetColor1 c => setColor1 c ;; ret true
  | SetColor2 c => setColor2 c ;; ret true
  | SetAuthor name => setAuthor name ;; ret true
  | ResetAuthor => resetAuthor ;; ret true
  | Stop => stop ;; ret true
  | Start => start ;; ret true
  end.

(** The states the widget can be in: the one after construction and
    those a handled event leads to. *)
Inductive reachable : BubblesWidget -> Prop :=
| reachable_initial sz : reachable (initial sz)
| reachable_step s ev s' o :
    reachable s -> handle ev s = (true, s', o) -> reachable s'.

(** The state after a list of events, when every one was handled. *)
Fixpoint run (evs : list Event) (s : BubblesWidget) : option BubblesWidget :=
  match evs with
  | [] => Some s
  | ev :: evs' =>
      match handle ev s with
      | (true, s', _) => run evs' s'
      | (false, _, _) => None
      end
  end.

End Handlers.

(** ** Vocabulary of the properties *)

(** A bubble one animation tick later: up by its speed, the rest as it
    was.  The height is exact here; [Binary64.rise] is the move over
    doubles. *)
Definition rise (b : Bubble) : Bubble :=
  mkBubble (mkQPointF (fx (position b)) (fy (position b) - speed b))
           (radius b) (speed b) (innerColor b) (outerColor b) (brush b).

(** The lower edge of the bubble is below the top of the widget. *)
Definition on_screen (b : Bubble) : bool :=
  Qlt_bool 0 (fy (position b) + radius b).

Definition off_screen (b : Bubble) : bool := negb (on_screen b).

(** What the loop of [animate] asks of the environment. *)
Definition animate_log (bs : list Bubble) : list Effect :=
  flat_map (fun b => update (damage_moved (rise b))
                       :: (if on_screen (rise b) then [] else [emit bubbleLeft]))
           bs.

(** [l1] is [l2] with some elements left out. *)
Inductive subseq {A : Type} : list A -> list A -> Prop :=
| subseq_nil : subseq [] []
| subseq_skip x l1 l2 : subseq l1 l2 -> subseq l1 (x :: l2)
| subseq_keep x l1 l2 : subseq l1 l2 -> subseq (x :: l1) (x :: l2).

(** Two bubbles that differ at most in their vertical coordinate. *)
Definition same_but_height (old new : Bubble) : Prop :=
  fx (position new) = fx (position old) /\
  radius new = radius old /\
  speed new = speed old /\
  innerColor new = innerColor old /\
  outerColor new = outerColor old /\
  brush new = brush old.

(** One eighth of the smaller side of the widget. *)
Definition cap (s : BubblesWidget) : Q :=
  inject_Z (Z.min (width s) (height s)) / 8.

(** The oracle hands out values of \[0, 1). *)
Definition unit_interval (rnd : nat -> Q) : Prop :=
  forall n, 0 <= rnd n /\ rnd n < 1.

(** A sample oracle: it cycles through 0, 1/7, ..., 6/7. *)
Definition sevenths (n : nat) : Q := Z.of_nat (n mod 7) # 7.

Definition press_at (x y : Z) : QMouseEvent :=
  mkQMouseEvent LeftButton (mkQPoint x y).

(** A gesture during which the widget shrinks: a press in a widget of
    400 by 400, eight growth ticks, and a resize to 200 by 200. *)
Definition shrinking_gesture : list Event :=
  [ Press (press_at 100 50);
    GrowthTick; GrowthTick; GrowthTick; GrowthTick;
    GrowthTick; GrowthTick; GrowthTick; GrowthTick;
    Resize (mkQSize 200 200) ].

(** A widget of 200 by 200 right after a press at (100, 50). *)
Definition pressed : BubblesWidget :=
  state_of (mousePressEvent sevenths (press_at 100 50)
                            (initial sevenths (mkQSize 200 200))).

(** The bubble that press leaves pending. *)
Definition pressed_bubble : Bubble :=
  Bubble_init (QPointF_of_QPoint (mkQPoint 100 50)) 4 (1 + sevenths 8 * 7)
    (QColor_rgba (205 + sevenths 9 * 50) (205 + sevenths 10 * 50)
                 (205 + sevenths 11 * 50) (91 + sevenths 12 * 100))
    (QColor_rgba (205 + sevenths 13 * 50) (205 + sevenths 14 * 50)
                 (205 + sevenths 15 * 50) (91 + sevenths 16 * 100)).

(** The state a list of events leads to from a widget of 400 by 400; the
    widget as built when an event could not be handled. *)
Definition after (evs : list Event) : BubblesWidget :=
  match run sevenths evs (initial sevenths (mkQSize 400 400)) with
  | Some s => s
  | None => initial sevenths (mkQSize 400 400)
  end.

(** The bubbles [paintEvent] draws for a region: those whose bounding box
    Qt finds intersecting it. *)
Definition visible (rect : QRect) (b : Bubble) : bool :=
  intersects (boundingBox b) (QRectF_of_QRect rect).

(** A collection of three bubbles, the second one away from the corner. *)
Definition plain : QColor := QColor_named "white".
Definition three_bubbles : list Bubble :=
  [ Bubble_init (mkQPointF 10 3) 5 10 plain plain;
    Bubble_init (mkQPointF 120 130) 5 2 plain plain;
    Bubble_init (mkQPointF 12 8) 6 3 plain plain ].

(** The bubble [setBubbles] builds from the twelve values the oracle
    hands out from the [k]-th on, in a widget of [wi] by [he]. *)
Definition randomBubble (rnd : nat -> Q) (k : nat) (wi he : Z) : Bubble :=
  updateBrush
    (Bubble_init
       (mkQPointF (rnd k * inject_Z wi) (rnd (1 + k)%nat * inject_Z he))
       (4 + rnd (2 + k)%nat * 20)
       (1 + rnd (3 + k)%nat * 7)
       (QColor_rgba (205 + rnd (4 + k)%nat * 50) (205 + rnd (5 + k)%nat * 50)
                    (205 + rnd (6 + k)%nat * 50) (91 + rnd (7 + k)%nat * 100))
       (QColor_rgba (205 + rnd (8 + k)%nat * 50) (205 + rnd (9 + k)%nat * 50)
                    (205 + rnd (10 + k)%nat * 50)
                    (91 + rnd (11 + k)%nat * 100))).

(** [n] such bubbles in a row. *)
Fixpoint randomBubbles (rnd : nat -> Q) (k : nat) (wi he : Z) (n : nat)
  : list Bubble :=
  match n with
  | O => []
  | S n' => randomBubble rnd k wi he :: randomBubbles rnd (12 + k) wi he n'
  end.

(** The ranges of a synthesized bubble in a widget of [wi] by [he]. *)
Definition in_ranges (wi he : Z) (b : Bubble) : Prop :=
  (4 <= radius b /\ radius b <= 24) /\
  (1 <= speed b /\ speed b <= 8) /\
  (0 <= fx (position b) /\ fx (position b) <= inject_Z wi) /\
  (0 <= fy (position b) /\ fy (position b) <= inject_Z he).

(** The growth timer runs exactly while a bubble is pending. *)
Definition timer_tracks_pending (s : BubblesWidget) : Prop :=
  isActive (bubbleTimer s) = true <-> newBubble s <> None.

(** A widget of 200 by 200 holding the three bubbles. *)
Definition populated : BubblesWidget :=
  set_bubbles three_bubbles (initial sevenths (mkQSize 200 200)).

(** The size Qt keeps for the widget once [__init__] set its minimum. *)
Definition sized (s : BubblesWidget) : Prop :=
  minimumSize s = mkQSize 200 200 /\
  (200 <= width s)%Z /\ (200 <= height s)%Z.

(** The widget after [k] runs of [animate]. *)
Definition ticks (k : nat) (s : BubblesWidget) : BubblesWidget :=
  Nat.iter k (fun s => state_of (animate s)) s.

(** The number of [bubbleLeft] among signals. *)
Fixpoint departures (o : list Signal) : nat :=
  match o with
  | [] => O
  | bubbleLeft :: o' => S (departures o')
  | bubblesRemaining _ :: o' => departures o'
  end.

(** The integer rectangle [r] contains the rectangle [f]. *)
Definition covers (r : QRect) (f : QRectF) : Prop :=
  (inject_Z (rx r) <= xp f /\ xp f + wd f <= inject_Z (rx r + rw r)) /\
  (inject_Z (ry r) <= yp f /\ yp f + ht f <= inject_Z (ry r + rh r)).

(** The brush of the bubble is the one of its radius and colours. *)
Definition fresh_brush (b : Bubble) : Prop :=
  brush b = gradientBrush (radius b) (innerColor b) (outerColor b).

(** The radius is at least the starting radius and the speed is one a
    random draw gives. *)
Definition in_bounds (b : Bubble) : Prop :=
  4 <= radius b /\ 1 <= speed b /\ speed b < 8.

(** Every bubble of the widget, the pending one included, has [P]. *)
Definition every_bubble (P : Bubble -> Prop) (s : BubblesWidget) : Prop :=
  Forall P (bubbles s) /\ forall b, newBubble s = Some b -> P b.

(** The events between the press and the release of a gesture. *)
Definition gesture_event (ev : Event) : Prop :=
  match ev with
  | GrowthTick | Move _ => True
  | _ => False
  end.

(** The widget after [k] runs of [expandBubble]. *)
Definition grows (k : nat) (s : BubblesWidget) : BubblesWidget :=
  Nat.iter k (fun s => state_of (expandBubble s)) s.


(** ** The animation tick in binary64

    The handlers above compute with exact rationals.  What a tick does to
    the height of a bubble, and which bubbles it drops, depends on the
    rounding of the additions: this module is the tick over the doubles
    Python and Qt compute with (Qt's [qreal] is a double on a desktop
    build), for the attributes [animate] reads or writes.  The colours and the brush of a bubble, which [animate] only
    carries along, are of any type. *)
Module Binary64.

Import Floats.

(** The number a double stands for; none for an infinity or a NaN. *)
Definition SF2Q (f : spec_float) : option Q :=
  match f with
  | S754_zero _ => Some 0
  | S754_finite s m e =>
      Some ((if s then -1 else 1) * inject_Z (Zpos m) * Qpower 2 e)
  | _ => None
  end.

Definition value (f : float) : option Q := SF2Q (Prim2SF f).

Record QPointF := mkQPointF { fx : float; fy : float }.
Record QSizeF := mkQSizeF { fwidth : float; fheight : float }.
Record QRectF := mkQRectF { xp : float; yp : float; wd : float; ht : float }.

Definition QPointF_add (p q : QPointF) : QPointF :=
  mkQPointF (fx p + fx q)%float (fy p + fy q)%float.

Definition QPointF_sub (p q : QPointF) : QPointF :=
  mkQPointF (fx p - fx q)%float (fy p - fy q)%float.

Definition QRectF_of (p : QPointF) (s : QSizeF) : QRectF :=
  mkQRectF (fx p) (fy p) (fwidth s) (fheight s).

(** [update r] stands for [self.update(r.toRect())]. *)
Inductive Effect : Type :=
| emit (s : Signal)
| update (r : QRectF).

Fixpoint signals (o : list Effect) : list Signal :=
  match o with
  | [] => []
  | emit s :: o' => s :: signals o'
  | update _ :: o' => signals o'
  end.

Section Bubbles.

Variables Color Brush : Type.

Record Bubble := mkBubble {
  position : QPointF;
  radius : float;
  speed : float;
  innerColor : Color;
  outerColor : Color;
  brush : Brush
}.

Definition set_position (p : QPointF) (b : Bubble) : Bubble :=
  mkBubble p (radius b) (speed b) (innerColor b) (outerColor b) (brush b).

(** The attributes of the widget [animate] reads or writes. *)
Record BubblesWidget := mkBubblesWidget {
  bubbles : list Bubble;
  newBubble : option Bubble
}.

Definition damage (b : Bubble) : QRectF :=
  QRectF_of
    (QPointF_sub (position b)
                 (mkQPointF (radius b + 1)%float (radius b + 1)%float))
    (mkQSizeF (2 * radius b + 2)%float (2 * radius b + 2)%float).

Definition damage_moved (b : Bubble) : QRectF :=
  QRectF_of
    (QPointF_sub (position b)
                 (mkQPointF (radius b + 1)%float (radius b + 1)%float))
    (mkQSizeF (2 * radius b + 2)%float (2 * radius b + 2 + speed b)%float).

(** The loop of [animate] over the bubbles still to visit; [bubbles] and
    [left'] are the two local variables of the method. *)
Fixpoint animate_loop (todo : list Bubble) (bubbles : list Bubble)
         (left' : bool) : list Bubble * bool * list Effect :=
  match todo with
  | [] => (bubbles, left', [])
  | bubble :: todo' =>
      let bubble :=
        set_position
          (QPointF_add (position bubble) (mkQPointF 0 (- speed bubble)%float))
          bubble in
      let o := [update (damage_moved bubble)] in
      if (0 <? fy (position bubble) + radius bubble)%float
      then
        let '(bs, l, o') := animate_loop todo' (bubbles ++ [bubble]) left' in
        (bs, l, o ++ o')
      else
        let '(bs, l, o') := animate_loop todo' bubbles true in
        (bs, l, o ++ [emit bubbleLeft] ++ o')
  end.

Definition animate (self : BubblesWidget) : BubblesWidget * list Effect :=
  let '(bubbles', left', o) := animate_loop (bubbles self) [] false in
  let o1 :=
    match newBubble self with
    | Some b => [update (damage b)]
    | None => []
    end in
  (mkBubblesWidget bubbles' (newBubble self),
   o ++ o1
   ++ (if left' then [emit (bubblesRemaining (len bubbles'))] else [])).

(** A bubble one tick later: its height is the double nearest to the
    height less the speed; the rest is as it was. *)
Definition rise (b : Bubble) : Bubble :=
  mkBubble (mkQPointF (fx (position b) + 0)%float
                      (fy (position b) + - speed b)%float)
           (radius b) (speed b) (innerColor b) (outerColor b) (brush b).

Definition on_screen (b : Bubble) : bool :=
  (0 <? fy (position b) + radius b)%float.

Definition off_screen (b : Bubble) : bool := negb (on_screen b).

(** What the loop asks of the environment. *)
Definition animate_log (bs : list Bubble) : list Effect :=
  flat_map (fun b => update (damage_moved (rise b))
                       :: (if on_screen (rise b) then [] else [emit bubbleLeft]))
           bs.

End Bubbles.

Arguments mkBubble {Color Brush}.
Arguments position {Color Brush}.
Arguments radius {Color Brush}.
Arguments speed {Color Brush}.
Arguments innerColor {Color Brush}.
Arguments outerColor {Color Brush}.
Arguments brush {Color Brush}.
Arguments set_position {Color Brush}.
Arguments mkBubblesWidget {Color Brush}.
Arguments bubbles {Color Brush}.
Arguments newBubble {Color Brush}.
Arguments damage {Color Brush}.
Arguments damage_moved {Color Brush}.
Arguments animate_loop {Color Brush}.
Arguments animate {Color Brush}.
Arguments rise {Color Brush}.
Arguments on_screen {Color Brush}.
Arguments off_screen {Color Brush}.
Arguments animate_log {Color Brush}.

(** A bubble just below the top of the widget: its height is 201 * 2^-53,
    its speed 4 + 200 * 2^-53 and its radius 4. *)
Definition grazing : Bubble unit unit :=
  mkBubble (mkQPointF 10 (201 * 0x1p-53)%float) 4
           (4 + 200 * 0x1p-53)%float tt tt tt.

End Binary64.

(** ** Numbers *)

Lemma Qplus_0_r_eq (x : Q) : x + 0 = x.
Proof.
  destruct x as [n d]. unfold Qplus. simpl.
  rewrite Z.mul_1_r, Z.add_0_r, Pos.mul_1_r. reflexivity.
Qed.

Lemma Qlt_bool_iff (a b : Q) : Qlt_bool a b = true <-> a < b.
Proof.
  unfold Qlt_bool. rewrite negb_true_iff.
  split; intros H.
  - apply Qnot_le_lt. intros Hle. apply Qle_bool_iff in Hle. congruence.
  - destruct (Qle_bool b a) eqn:E; [| reflexivity].
    apply Qle_bool_iff in E. exfalso. apply (Qlt_not_le _ _ H E).
Qed.

Lemma Qlt_bool_false_iff (a b : Q) : Qlt_bool a b = false <-> b <= a.
Proof.
  unfold Qlt_bool. rewrite negb_false_iff. apply Qle_bool_iff.
Qed.

(** ** The animation tick *)

Lemma moved_is_rise (b : Bubble) :
  set_position (QPointF_add (position b) (mkQPointF 0 (- speed b))) b = rise b.
Proof.
  unfold set_position, QPointF_add, rise. simpl.
  rewrite Qplus_0_r_eq. reflexivity.
Qed.

Lemma animate_loop (bs : list Bubble) :
  forall acc lf s,
    foldM animate_body (acc, lf) bs s =
    ((acc ++ filter on_screen (map rise bs),
      lf || existsb off_screen (map rise bs)), s, animate_log bs).
Proof.
  induction bs as [| b bs IH]; intros acc lf s.
  - simpl. rewrite app_nil_r, orb_false_r. reflexivity.
  - cbn [foldM map filter existsb animate_log flat_map].
    unfold bind at 1. unfold animate_body at 1.
    rewrite moved_is_rise.
    unfold off_screen at 1. 
    change (Qlt_bool 0 (fy (position (rise b)) + radius (rise b)))
      with (on_screen (rise b)).
    destruct (on_screen (rise b)) eqn:E.
    + cbn. rewrite IH. rewrite <- app_assoc. cbn.
      reflexivity.
    + cbn. rewrite IH. rewrite orb_true_r. cbn. reflexivity.
Qed.

Lemma animate_run (s : BubblesWidget) :
  animate s =
  (tt,
   set_bubbles (filter on_screen (map rise (bubbles s))) s,
   animate_log (bubbles s)
   ++ match newBubble s with Some b => [update (damage b)] | None => [] end
   ++ (if existsb off_screen (map rise (bubbles s))
       then [emit (bubblesRemaining
                     (len (filter on_screen (map rise (bubbles s)))))]
       else [])).
Proof.
  unfold animate, bind, gets.
  rewrite animate_loop. cbn [app orb].
  destruct (newBubble s) as [b |];
    destruct (existsb off_screen (map rise (bubbles s)));
    cbn; rewrite ?app_nil_r; reflexivity.
Qed.

Lemma signals_app (o1 o2 : list Effect) :
  signals (o1 ++ o2) = signals o1 ++ signals o2.
Proof.
  induction o1 as [| e o1 IH]; [reflexivity |].
  destruct e; cbn; rewrite IH; reflexivity.
Qed.

Lemma signals_animate_log (bs : list Bubble) :
  signals (animate_log bs) =
  repeat bubbleLeft (List.length (filter off_screen (map rise bs))).
Proof.
  induction bs as [| b bs IH]; [reflexivity |].
  cbn [animate_log flat_map map filter]. fold (animate_log bs).
  unfold off_screen at 1.
  destruct (on_screen (rise b)); cbn; rewrite IH; reflexivity.
Qed.

Lemma existsb_filter_nil {A} (p : A -> bool) (l : list A) :
  existsb p l = match filter p l with [] => false | _ :: _ => true end.
Proof.
  induction l as [| x l IH]; [reflexivity |].
  cbn. destruct (p x); [reflexivity | exact IH].
Qed.

Lemma filter_map_rise (l : list Bubble) :
  filter on_screen (map rise l) =
  map rise (filter (fun b => on_screen (rise b)) l).
Proof.
  induction l as [| b l IH]; [reflexivity |].
  cbn. destruct (on_screen (rise b)); cbn; rewrite IH; reflexivity.
Qed.

Lemma subseq_filter {A} (p : A -> bool) (l : list A) : subseq (filter p l) l.
Proof.
  induction l as [| x l IH]; cbn.
  - constructor.
  - destruct (p x); constructor; exact IH.
Qed.

Lemma rise_same_but_height (b : Bubble) : same_but_height b (rise b).
Proof. unfold same_but_height, rise. cbn. repeat split. Qed.

(** C10.  The bubbles left after an animation tick are, in the same
    order, bubbles of the collection before it, each with its horizontal
    coordinate, radius, speed, colours and brush as before. *)
Theorem animate_keeps_order (s : BubblesWidget) :
  exists survivors,
    subseq survivors (bubbles s) /\
    Forall2 same_but_height survivors (bubbles (state_of (animate s))).
Proof.
  exists (filter (fun b => on_screen (rise b)) (bubbles s)). split.
  - apply subseq_filter.
  - rewrite animate_run. unfold state_of. cbn [fst snd set_bubbles bubbles].
    rewrite filter_map_rise.
    induction (filter (fun b => on_screen (rise b)) (bubbles s)) as [| b l IH].
    + constructor.
    + cbn. constructor; [apply rise_same_but_height | exact IH].
Qed.

(** ** The growth tick *)

Lemma py_min3_cases (a b c : Q) :
  (py_min3 a b c = a /\ a <= b /\ a <= c) \/
  (py_min3 a b c = b /\ b < a /\ b <= c) \/
  (py_min3 a b c = c /\ c < a /\ c < b).
Proof.
  unfold py_min3.
  destruct (Qlt_bool b a) eqn:Eb.
  - apply Qlt_bool_iff in Eb.
    destruct (Qlt_bool c b) eqn:Ec.
    + apply Qlt_bool_iff in Ec. right. right. repeat split; lra.
    + apply Qlt_bool_false_iff in Ec. right. left. repeat split; lra.
  - apply Qlt_bool_false_iff in Eb.
    destruct (Qlt_bool c a) eqn:Ec.
    + apply Qlt_bool_iff in Ec. right. right. repeat split; lra.
    + apply Qlt_bool_false_iff in Ec. left. repeat split; lra.
Qed.

Lemma eighth_min (x y : Z) :
  Qmin (inject_Z x / 8) (inject_Z y / 8) == inject_Z (Z.min x y) / 8.
Proof.
  unfold Qdiv. change (/ 8) with (1 # 8).
  destruct (Z.min_spec x y) as [[Hlt ->] | [Hle ->]].
  - apply Q.min_l. apply Z.lt_le_incl in Hlt. rewrite Zle_Qle in Hlt. lra.
  - apply Q.min_r. rewrite Zle_Qle in Hle. lra.
Qed.

Lemma py_min3_cap (r : Q) (s : BubblesWidget) :
  py_min3 (r + 4) (inject_Z (width s) / 8) (inject_Z (height s) / 8)
  == Qmin (r + 4) (cap s).
Proof.
  unfold cap. rewrite <- eighth_min.
  set (a := r + 4). set (b := inject_Z (width s) / 8).
  set (c := inject_Z (height s) / 8).
  destruct (py_min3_cases a b c) as [[-> [? ?]] | [[-> [? ?]] | [-> [? ?]]]];
    destruct (Q.min_spec b c) as [[? Hm] | [? Hm]];
    destruct (Q.min_spec a (Qmin b c)) as [[? Hn] | [? Hn]]; lra.
Qed.

Lemma expandBubble_run (s : BubblesWidget) (b : Bubble) :
  newBubble s = Some b ->
  let b' := set_radius (py_min3 (radius b + 4) (inject_Z (width s) / 8)
                                (inject_Z (height s) / 8)) b in
  expandBubble s =
  (tt, set_newBubble (Some (updateBrush b')) s, [update (damage b')]).
Proof.
  intros H. unfold expandBubble, bind, gets. rewrite H. reflexivity.
Qed.

(** C3.  A growth tick with a pending bubble sets its radius to
    [min(radius + 4.0, width/8, height/8)] for the width and height the
    widget has at that tick -- the smaller of the radius plus four and one
    eighth of the smaller side -- and gives it the brush of the new
    radius; position, speed and colours stay. *)
Theorem expandBubble_grows (s : BubblesWidget) (b : Bubble) :
  newBubble s = Some b ->
  exists b',
    newBubble (state_of (expandBubble s)) = Some b' /\
    radius b' = py_min3 (radius b + 4) (inject_Z (width s) / 8)
                        (inject_Z (height s) / 8) /\
    radius b' == Qmin (radius b + 4) (cap s) /\
    brush b' = gradientBrush (radius b') (innerColor b') (outerColor b') /\
    position b' = position b /\ speed b' = speed b /\
    innerColor b' = innerColor b /\ outerColor b' = outerColor b.
Proof.
  intros H. rewrite (expandBubble_run s b H). cbv zeta.
  eexists. split; [reflexivity |]. cbn.
  repeat split. apply py_min3_cap.
Qed.

Lemma pressed_pending : newBubble pressed = Some pressed_bubble.
Proof. vm_compute. reflexivity. Qed.

Lemma expandBubble_grows_witness :
  newBubble pressed = Some pressed_bubble /\
  exists b',
    newBubble (state_of (expandBubble pressed)) = Some b' /\
    radius b' == 8.
Proof.
  split; [exact pressed_pending |].
  destruct (expandBubble_grows pressed pressed_bubble pressed_pending)
    as [b' [Hn [Hr _]]].
  exists b'. split; [exact Hn |]. rewrite Hr. vm_compute. reflexivity.
Defined.

(** C4, the claim as stated fails: during one gesture a growth tick can
    lower the radius of the pending bubble. *)
Lemma growth_not_monotone :
  ~ (forall rnd sz evs s b s' b' o,
        run rnd evs (initial rnd sz) = Some s ->
        newBubble s = Some b ->
        handle rnd GrowthTick s = (true, s', o) ->
        newBubble s' = Some b' ->
        radius b <= radius b' /\ radius b' <= cap s').
Proof.
  intros H.
  assert (Hrun : run sevenths shrinking_gesture
                     (initial sevenths (mkQSize 400 400))
                 = Some (after shrinking_gesture))
    by (vm_compute; reflexivity).
  assert (Hb : exists b, newBubble (after shrinking_gesture) = Some b /\
                         radius b == 36)
    by (eexists; split; vm_compute; reflexivity).
  destruct Hb as [b [Hb Hr]].
  assert (Hh : exists s' o b',
             handle sevenths GrowthTick (after shrinking_gesture)
             = (true, s', o) /\
             newBubble s' = Some b' /\ radius b' == 25).
  { do 3 eexists. split; [vm_compute; reflexivity |].
    split; vm_compute; reflexivity. }
  destruct Hh as [s' [o [b' [Hh [Hb' Hr']]]]].
  destruct (H _ _ _ _ _ _ _ _ Hrun Hb Hh Hb') as [Hmono _].
  rewrite Hr, Hr' in Hmono. vm_compute in Hmono. apply Hmono. reflexivity.
Qed.

(** C4, amended.  After a growth tick the radius of the pending bubble is
    at most one eighth of the smaller side the widget has at that tick;
    the tick does not lower a radius that was at most that bound, and it
    lowers a larger one to the bound.  The tick leaves the bound as it
    is. *)
Theorem expandBubble_capped (s : BubblesWidget) (b : Bubble) :
  newBubble s = Some b ->
  exists b',
    newBubble (state_of (expandBubble s)) = Some b' /\
    radius b' <= cap s /\
    (radius b <= cap s -> radius b <= radius b') /\
    (cap s < radius b -> radius b' == cap s) /\
    cap (state_of (expandBubble s)) = cap s.
Proof.
  intros H. rewrite (expandBubble_run s b H). cbv zeta.
  eexists. split; [reflexivity |]. cbn [radius updateBrush set_radius].
  pose proof (py_min3_cap (radius b) s) as Hm.
  destruct (Q.min_spec (radius b + 4) (cap s)) as [[? Hq] | [? Hq]];
    repeat split; try lra.
Qed.

Lemma expandBubble_capped_witness :
  newBubble pressed = Some pressed_bubble /\
  exists b',
    newBubble (state_of (expandBubble pressed)) = Some b' /\
    radius b' <= cap pressed /\ radius pressed_bubble <= radius b'.
Proof.
  split; [exact pressed_pending |].
  destruct (expandBubble_capped pressed pressed_bubble pressed_pending)
    as [b' [Hn [Hc [Hm _]]]].
  exists b'. split; [exact Hn |]. split; [exact Hc |].
  apply Hm. vm_compute. discriminate.
Defined.

(** ** The sample oracle *)

Lemma sevenths_unit_interval : unit_interval sevenths.
Proof.
  intros n. unfold sevenths, Qle, Qlt. cbn [Qnum Qden].
  pose proof (Nat.mod_upper_bound n 7). lia.
Qed.

(** ** Press and release *)

(** C5.  A press of the left button with no pending bubble makes a bubble
    pending at the point of the press, with radius exactly 4 and a speed
    in \[1, 8), and starts the growth timer; with a bubble pending the
    press changes nothing and asks nothing of the environment. *)
Theorem mousePressEvent_left (rnd : nat -> Q) (event : QMouseEvent)
        (s : BubblesWidget) :
  unit_interval rnd ->
  button event = LeftButton ->
  let r := mousePressEvent rnd event s in
  (newBubble s = None ->
   exists b,
     newBubble (state_of r) = Some b /\
     position b = QPointF_of_QPoint (pos event) /\
     radius b = 4 /\
     1 <= speed b /\ speed b < 8 /\
     bubbleTimer (state_of r) = QTimer_start 50 (bubbleTimer s) /\
     isActive (bubbleTimer (state_of r)) = true /\
     bubbles (state_of r) = bubbles s /\
     animation_timer (state_of r) = animation_timer s) /\
  (newBubble s <> None -> r = (tt, s, [])).
Proof.
  intros Hrnd Hleft r. subst r.
  unfold mousePressEvent, bind, gets. rewrite Hleft. cbn [MouseButton_eqb andb].
  split.
  - intros Hnone. rewrite Hnone.
    eexists. split; [reflexivity |]. cbn.
    destruct (Hrnd (random_state s)) as [H0 H1].
    repeat split; lra.
  - intros Hsome. destruct (newBubble s) as [b |]; [reflexivity |].
    exfalso. apply Hsome. reflexivity.
Qed.

Lemma mousePressEvent_left_witness :
  exists b,
    newBubble
      (state_of (mousePressEvent sevenths (press_at 100 50)
                                 (initial sevenths (mkQSize 200 200))))
    = Some b /\
    radius b = 4 /\ 1 <= speed b /\ speed b < 8.
Proof.
  destruct (mousePressEvent_left sevenths (press_at 100 50)
              (initial sevenths (mkQSize 200 200))
              sevenths_unit_interval eq_refl) as [Hnew _].
  destruct Hnew as [b [Hb [_ [Hr [Hlo [Hhi _]]]]]].
  - vm_compute. reflexivity.
  - exists b. repeat split; assumption.
Defined.

(** C6.  A release with a bubble pending appends that bubble, as it is,
    to the collection, leaves no bubble pending, stops the growth timer
    and emits [bubblesRemaining] with the length of the collection, the
    new bubble included. *)
Theorem mouseReleaseEvent_commits (event : QMouseEvent) (s : BubblesWidget)
        (b : Bubble) :
  newBubble s = Some b ->
  let r := mouseReleaseEvent event s in
  bubbles (state_of r) = bubbles s ++ [b] /\
  newBubble (state_of r) = None /\
  bubbleTimer (state_of r) = QTimer_stop (bubbleTimer s) /\
  isActive (bubbleTimer (state_of r)) = false /\
  signals (log_of r) = [bubblesRemaining (len (bubbles (state_of r)))] /\
  len (bubbles (state_of r)) = (len (bubbles s) + 1)%Z.
Proof.
  intros H r. subst r. unfold mouseReleaseEvent, bind, gets. rewrite H.
  cbn. repeat split.
  unfold len. rewrite length_app. cbn. lia.
Qed.

Lemma mouseReleaseEvent_commits_witness :
  newBubble pressed = Some pressed_bubble /\
  bubbles (state_of (mouseReleaseEvent (press_at 100 50) pressed))
  = [pressed_bubble] /\
  signals (log_of (mouseReleaseEvent (press_at 100 50) pressed))
  = [bubblesRemaining 1].
Proof.
  split; [exact pressed_pending |].
  destruct (mouseReleaseEvent_commits (press_at 100 50) pressed pressed_bubble
              pressed_pending) as [Hb [_ [_ [_ [Hs Hl]]]]].
  split.
  - rewrite Hb. vm_compute. reflexivity.
  - rewrite Hs, Hl. vm_compute. reflexivity.
Defined.

(** ** Painting *)

Lemma tell_all_run (l : list Effect) (s : BubblesWidget) :
  tell_all l s = (tt, s, l).
Proof.
  induction l as [| e l IH]; [reflexivity |].
  cbn [tell_all]. unfold bind, tell. rewrite IH. reflexivity.
Qed.

Lemma paint_loop (rect : QRect) (bs : list Bubble) (s : BubblesWidget) :
  foldM (paint_body rect) tt bs s =
  (tt, s, map paint (flat_map drawBubble (filter (visible rect) bs))).
Proof.
  induction bs as [| b bs IH]; [reflexivity |].
  cbn [foldM filter]. unfold bind at 1. unfold paint_body at 1, when.
  fold (visible rect b).
  destruct (visible rect b).
  - rewrite tell_all_run, IH. cbn [flat_map]. rewrite map_app. reflexivity.
  - unfold ret at 1. rewrite IH. reflexivity.
Qed.


(** ** The number of bubbles *)

Lemma appendRandomBubble_run (rnd : nat -> Q) (s : BubblesWidget) :
  appendRandomBubble rnd s =
  (tt,
   set_random_state (12 + random_state s)
     (set_bubbles
        (bubbles s ++ [randomBubble rnd (random_state s) (width s) (height s)])
        s),
   []).
Proof. reflexivity. Qed.

Lemma randomBubbles_length rnd k wi he n :
  List.length (randomBubbles rnd k wi he n) = n.
Proof.
  revert k. induction n as [| n IH]; intros k; cbn; [| rewrite IH]; reflexivity.
Qed.

Lemma randomBubble_in_ranges rnd k wi he :
  unit_interval rnd -> (0 <= wi)%Z -> (0 <= he)%Z ->
  in_ranges wi he (randomBubble rnd k wi he).
Proof.
  intros Hrnd Hw Hh. unfold in_ranges, randomBubble. cbn.
  rewrite Zle_Qle in Hw, Hh. change (inject_Z 0) with 0 in Hw, Hh.
  destruct (Hrnd k), (Hrnd (S k)), (Hrnd (S (S k))), (Hrnd (S (S (S k)))).
  repeat split; nra.
Qed.

Lemma randomBubbles_in_ranges rnd wi he n :
  unit_interval rnd -> (0 <= wi)%Z -> (0 <= he)%Z ->
  forall k, Forall (in_ranges wi he) (randomBubbles rnd k wi he n).
Proof.
  intros Hrnd Hw Hh. induction n as [| n IH]; intros k; cbn [randomBubbles].
  - constructor.
  - constructor; [apply randomBubble_in_ranges; assumption | apply IH].
Qed.

Lemma len_nonneg {A} (l : list A) : (0 <= len l)%Z.
Proof. unfold len. lia. Qed.

Lemma setBubbles_loop_exit (rnd : nat -> Q) (value : Z) (fuel : nat)
      (s : BubblesWidget) :
  (value <= len (bubbles s))%Z ->
  while_ fuel (n <- getBubbles ;; ret (n <? value)%Z)%handler
         (appendRandomBubble rnd) s = (true, s, []).
Proof.
  intros Hge.
  destruct fuel; cbn [while_]; unfold bind, getBubbles, gets, ret;
    destruct (Z.ltb_spec (len (bubbles s)) value); try lia; reflexivity.
Qed.

Lemma set_same (s : BubblesWidget) :
  set_random_state (random_state s) (set_bubbles (bubbles s) s) = s.
Proof. destruct s; reflexivity. Qed.

(** The loop of [setBubbles], given enough fuel, stops by its condition
    after appending the missing bubbles. *)
Lemma setBubbles_loop (rnd : nat -> Q) (value : Z) (fuel : nat) :
  forall s,
    (Z.to_nat (value - len (bubbles s)) <= fuel)%nat ->
    while_ fuel (n <- getBubbles ;; ret (n <? value)%Z)%handler
           (appendRandomBubble rnd) s =
    (true,
     set_random_state
       (12 * Z.to_nat (value - len (bubbles s)) + random_state s)
       (set_bubbles
          (bubbles s
           ++ randomBubbles rnd (random_state s) (width s) (height s)
                            (Z.to_nat (value - len (bubbles s))))
          s),
     []).
Proof.
  induction fuel as [| fuel IH]; intros s Hfuel;
    destruct (Z.lt_ge_cases (len (bubbles s)) value) as [Hlt | Hge];
    try lia;
    try (rewrite setBubbles_loop_exit by exact Hge;
         replace (Z.to_nat (value - len (bubbles s))) with O by lia;
         cbn [randomBubbles Nat.mul Nat.add]; rewrite app_nil_r, set_same;
         reflexivity).
  cbn [while_]. unfold bind at 1 2. unfold getBubbles, gets, ret.
  destruct (Z.ltb_spec (len (bubbles s)) value) as [_ | Hge]; [| lia].
  unfold bind. rewrite appendRandomBubble_run.
  assert (Hn : Z.to_nat (value - len (bubbles s))
               = S (Z.to_nat
                      (value - len (bubbles s ++
                         [randomBubble rnd (random_state s)
                                       (width s) (height s)])))).
  { unfold len in *. rewrite length_app. cbn [List.length]. lia. }
  rewrite IH.
  - rewrite Hn. cbn [randomBubbles].
    unfold set_random_state, set_bubbles.
    cbn [bubbles random_state width height _author pen backgroundColor1
         backgroundColor2 newBubble animation_timer bubbleTimer
         mouseTracking minimumSize windowTitle app].
    rewrite <- app_assoc. cbn [app].
    match goal with
    | |- context [(12 * S ?n + ?k)%nat] =>
        replace (12 * S n + k)%nat with (12 * n + (12 + k))%nat by lia
    end.
    reflexivity.
  - cbn [set_random_state set_bubbles bubbles]. lia.
Qed.

Lemma py_max_0 (value : Z) : py_max 0 value = Z.max 0 value.
Proof.
  unfold py_max. destruct (Z.ltb_spec 0 value); lia.
Qed.

Lemma setBubbles_run (rnd : nat -> Q) (fuel : nat) (value : Z)
      (s : BubblesWidget) :
  let v := py_max 0 value in
  let n := Z.to_nat (v - len (bubbles s)) in
  (n <= fuel)%nat ->
  setBubbles rnd fuel value s =
  (true,
   set_bubbles
     (slice_to (bubbles s ++ randomBubbles rnd (random_state s)
                                           (width s) (height s) n) v)
     (set_random_state (12 * n + random_state s) s),
   [emit (bubblesRemaining v); update_all]).
Proof.
  intros v n Hfuel. unfold setBubbles. fold v. unfold bind at 1.
  rewrite (setBubbles_loop rnd v fuel s Hfuel). fold n.
  reflexivity.
Qed.


Lemma slice_to_nonneg {A} (l : list A) (n : Z) :
  (0 <= n)%Z -> slice_to l n = firstn (Z.to_nat n) l.
Proof.
  intros H. unfold slice_to. destruct (Z.ltb_spec n 0); [lia | reflexivity].
Qed.

(** C2.  Setting the number of bubbles to [value], clamped below at zero
    to [N], on a collection of [M] bubbles ends (given fuel for the
    missing bubbles); if [N <= M] the collection becomes its first [N]
    bubbles, in order; if [M < N] it has [N] bubbles, the first [M] are the
    old ones, and every new one has its radius in \[4, 24\], its speed in
    \[1, 8\] and its position within the widget; [bubblesRemaining] is
    emitted, once, with the new number of bubbles. *)
Theorem setBubbles_resizes (rnd : nat -> Q) (fuel : nat) (value : Z)
        (s : BubblesWidget) :
  unit_interval rnd ->
  (0 <= width s)%Z -> (0 <= height s)%Z ->
  (Z.to_nat (py_max 0 value - len (bubbles s)) <= fuel)%nat ->
  let N := py_max 0 value in
  let M := len (bubbles s) in
  let r := setBubbles rnd fuel value s in
  value_of r = true /\
  ((N <= M)%Z -> bubbles (state_of r) = firstn (Z.to_nat N) (bubbles s)) /\
  ((M < N)%Z ->
   len (bubbles (state_of r)) = N /\
   firstn (Z.to_nat M) (bubbles (state_of r)) = bubbles s /\
   Forall (in_ranges (width s) (height s))
          (skipn (Z.to_nat M) (bubbles (state_of r)))) /\
  signals (log_of r) = [bubblesRemaining (len (bubbles (state_of r)))].
Proof.
  intros Hrnd Hw Hh Hfuel N M r. subst r.
  rewrite (setBubbles_run rnd fuel value s Hfuel). fold N. fold M.
  unfold value_of, state_of, log_of. cbn [fst snd set_bubbles bubbles signals].
  assert (HN : (0 <= N)%Z) by (subst N; rewrite py_max_0; lia).
  rewrite (slice_to_nonneg _ N HN).
  set (n := Z.to_nat (N - M)).
  set (new := randomBubbles rnd (random_state s) (width s) (height s) n).
  assert (Hnew : List.length new = n) by apply randomBubbles_length.
  assert (Hran : Forall (in_ranges (width s) (height s)) new)
    by (apply randomBubbles_in_ranges; assumption).
  assert (HM : M = Z.of_nat (List.length (bubbles s))) by reflexivity.
  assert (Hn : n = Z.to_nat (N - M)) by reflexivity.
  clearbody n new N M.
  split; [reflexivity |]. split; [| split].
  - intros Hle. rewrite firstn_app.
    replace (Z.to_nat N - List.length (bubbles s))%nat with O by lia.
    cbn [firstn]. apply app_nil_r.
  - intros Hlt.
    assert (Hall : firstn (Z.to_nat N) (bubbles s ++ new) = bubbles s ++ new).
    { apply firstn_all2. rewrite length_app. lia. }
    rewrite Hall. split; [| split].
    + unfold len. rewrite length_app. lia.
    + rewrite HM, Nat2Z.id, firstn_app, Nat.sub_diag, firstn_all.
      cbn [firstn]. apply app_nil_r.
    + rewrite HM, Nat2Z.id, skipn_app, Nat.sub_diag, skipn_all.
      cbn [skipn app]. exact Hran.
  - do 2 f_equal. unfold len. rewrite length_firstn, length_app. lia.
Qed.

Lemma setBubbles_resizes_witness :
  let s := initial sevenths (mkQSize 200 200) in
  let r := setBubbles sevenths 5 5 s in
  value_of r = true /\
  len (bubbles (state_of r)) = py_max 0 5 /\
  Forall (in_ranges (width s) (height s))
         (skipn (Z.to_nat (len (bubbles s))) (bubbles (state_of r))) /\
  signals (log_of r) = [bubblesRemaining (len (bubbles (state_of r)))].
Proof.
  intros s r.
  destruct (setBubbles_resizes sevenths 5 5 s sevenths_unit_interval)
    as [Hv [_ [Hgrow Hs]]].
  - vm_compute. discriminate.
  - vm_compute. discriminate.
  - vm_compute. lia.
  - destruct Hgrow as [Hl [_ Hr]]; [vm_compute; reflexivity |].
    split; [exact Hv |]. split; [exact Hl |]. split; [exact Hr | exact Hs].
Defined.

(** C8.  Setting the number of bubbles to a negative value does what
    setting it to zero does: whatever the fuel, the call ends, empties the
    collection and emits [bubblesRemaining] with zero. *)
Theorem setBubbles_negative (rnd : nat -> Q) (fuel : nat) (n : Z)
        (s : BubblesWidget) :
  (n < 0)%Z ->
  setBubbles rnd fuel n s = setBubbles rnd fuel 0 s /\
  setBubbles rnd fuel n s =
  (true, set_bubbles [] s, [emit (bubblesRemaining 0); update_all]).
Proof.
  intros Hneg.
  assert (Hmax : py_max 0 n = 0%Z) by (rewrite py_max_0; lia).
  assert (Hzero : setBubbles rnd fuel 0 s =
                  (true, set_bubbles [] s,
                   [emit (bubblesRemaining 0); update_all])).
  { pose proof (len_nonneg (bubbles s)) as Hlen.
    rewrite setBubbles_run; change (py_max 0 0) with 0%Z.
    - replace (Z.to_nat (0 - len (bubbles s))) with O by lia.
      cbn [randomBubbles Nat.mul Nat.add]. rewrite slice_to_nonneg by lia.
      cbn [Z.to_nat firstn]. destruct s; reflexivity.
    - lia. }
  split; [| rewrite <- Hzero]; unfold setBubbles; rewrite Hmax; reflexivity.
Qed.

Lemma setBubbles_negative_witness :
  setBubbles sevenths 0 (-3) populated = setBubbles sevenths 0 0 populated /\
  bubbles (state_of (setBubbles sevenths 0 (-3) populated)) = [] /\
  signals (log_of (setBubbles sevenths 0 (-3) populated))
  = [bubblesRemaining 0].
Proof.
  assert (Hneg : (-3 < 0)%Z) by lia.
  destruct (setBubbles_negative sevenths 0 (-3) populated Hneg) as [He Hr].
  split; [exact He |]. rewrite Hr. split; reflexivity.
Defined.

(** ** The growth timer and the pending bubble *)

Lemma tracks_bool (s : BubblesWidget) :
  timer_tracks_pending s <->
  isActive (bubbleTimer s)
  = match newBubble s with Some _ => true | None => false end.
Proof.
  unfold timer_tracks_pending. split.
  - intros [H1 H2]. destruct (newBubble s) as [b |].
    + apply H2. discriminate.
    + destruct (isActive (bubbleTimer s)); [| reflexivity].
      exfalso. apply H1; reflexivity.
  - intros H. rewrite H. destruct (newBubble s) as [b |]; split.
    + discriminate.
    + reflexivity.
    + discriminate.
    + intros H'. exfalso. apply H'. reflexivity.
Qed.

Lemma setBubbles_loop_out (rnd : nat -> Q) (value : Z) (s : BubblesWidget) :
  (len (bubbles s) < value)%Z ->
  while_ 0 (n <- getBubbles ;; ret (n <? value)%Z)%handler
         (appendRandomBubble rnd) s = (false, s, []).
Proof.
  intros Hlt. cbn [while_]. unfold bind, getBubbles, gets, ret.
  destruct (Z.ltb_spec (len (bubbles s)) value); [reflexivity | lia].
Qed.

Lemma setBubbles_loop_round (rnd : nat -> Q) (value : Z) (fuel : nat)
      (s : BubblesWidget) :
  (len (bubbles s) < value)%Z ->
  while_ (S fuel) (n <- getBubbles ;; ret (n <? value)%Z)%handler
         (appendRandomBubble rnd) s =
  while_ fuel (n <- getBubbles ;; ret (n <? value)%Z)%handler
         (appendRandomBubble rnd)
         (state_of (appendRandomBubble rnd s)).
Proof.
  intros Hlt. cbn [while_]. unfold bind at 1 2. unfold getBubbles, gets, ret.
  destruct (Z.ltb_spec (len (bubbles s)) value); [| lia].
  unfold bind at 1. rewrite appendRandomBubble_run.
  unfold state_of. cbn [fst snd app].
  destruct (while_ fuel _ _ _) as [[ok s2] o2]. reflexivity.
Qed.

Lemma setBubbles_loop_keeps (rnd : nat -> Q) (value : Z) (fuel : nat) :
  forall s,
    let r := while_ fuel (n <- getBubbles ;; ret (n <? value)%Z)%handler
                    (appendRandomBubble rnd) s in
    newBubble (state_of r) = newBubble s /\
    bubbleTimer (state_of r) = bubbleTimer s.
Proof.
  induction fuel as [| fuel IH]; intros s; cbv zeta;
    destruct (Z.lt_ge_cases (len (bubbles s)) value) as [Hlt | Hge];
    try (rewrite setBubbles_loop_exit by exact Hge; split; reflexivity).
  - rewrite setBubbles_loop_out by exact Hlt. split; reflexivity.
  - rewrite setBubbles_loop_round by exact Hlt.
    destruct (IH (state_of (appendRandomBubble rnd s))) as [H1 H2].
    rewrite H1, H2. split; reflexivity.
Qed.

Lemma setBubbles_unfold (rnd : nat -> Q) (fuel : nat) (value : Z)
      (s : BubblesWidget) :
  setBubbles rnd fuel value s =
  let v := py_max 0 value in
  let '(ended, s1, o1) :=
    while_ fuel (n <- getBubbles ;; ret (n <? v)%Z)%handler
           (appendRandomBubble rnd) s in
  if ended
  then (true, set_bubbles (slice_to (bubbles s1) v) s1,
        o1 ++ [emit (bubblesRemaining v); update_all])
  else (false, s1, o1 ++ []).
Proof.
  unfold setBubbles. unfold bind at 1. cbv zeta.
  destruct (while_ fuel _ _ s) as [[ended s1] o1].
  destruct ended; reflexivity.
Qed.

Lemma setBubbles_keeps (rnd : nat -> Q) (fuel : nat) (value : Z)
      (s : BubblesWidget) :
  newBubble (state_of (setBubbles rnd fuel value s)) = newBubble s /\
  bubbleTimer (state_of (setBubbles rnd fuel value s)) = bubbleTimer s.
Proof.
  rewrite setBubbles_unfold. cbv zeta.
  pose proof (setBubbles_loop_keeps rnd (py_max 0 value) fuel s) as H.
  cbv zeta in H.
  destruct (while_ fuel _ _ s) as [[ended s1] o1].
  unfold state_of in *. cbn [fst snd] in H.
  destruct ended; cbn; exact H.
Qed.

Lemma paintEvent_state (rect : QRect) (s : BubblesWidget) :
  state_of (paintEvent rect s) = s.
Proof.
  unfold paintEvent, bind, gets, tell. rewrite paint_loop.
  destruct (newBubble s); [rewrite tell_all_run |]; reflexivity.
Qed.

Lemma state_of_bind {A B} (c : M A) (k : A -> M B) (s : BubblesWidget) :
  state_of (bind c k s) = state_of (k (value_of (c s)) (state_of (c s))).
Proof.
  unfold bind, state_of, value_of.
  destruct (c s) as [[a s1] o1]. cbn [fst snd].
  destruct (k a s1) as [[b s2] o2]. reflexivity.
Qed.

Lemma state_of_then_true (c : M unit) (s : BubblesWidget) :
  state_of ((c ;; ret true) s) = state_of (c s).
Proof. rewrite state_of_bind. reflexivity. Qed.

Lemma handle_tracks (rnd : nat -> Q) (ev : Event) (s : BubblesWidget) :
  timer_tracks_pending s ->
  timer_tracks_pending (state_of (handle rnd ev s)).
Proof.
  rewrite !tracks_bool. intros H.
  destruct ev as [e | e | e | | | rect | sz | fuel value | c | c | name | | |];
    cbn [handle]; rewrite ?state_of_then_true.
  - unfold mousePressEvent. rewrite !state_of_bind.
    cbn [gets value_of state_of fst snd].
    destruct (button e), (newBubble s) eqn:E; cbn; rewrite ?E; try exact H;
      reflexivity.
  - unfold mouseMoveEvent. rewrite !state_of_bind.
    cbn [gets value_of state_of fst snd].
    destruct (newBubble s) eqn:E; cbn; rewrite ?E; exact H.
  - unfold mouseReleaseEvent. rewrite !state_of_bind.
    cbn [gets value_of state_of fst snd].
    destruct (newBubble s) eqn:E; cbn; rewrite ?E; try exact H; reflexivity.
  - rewrite !state_of_bind. cbn [gets value_of state_of fst snd ret].
    unfold when. destruct (isActive (animation_timer s)).
    + rewrite animate_run. cbn. exact H.
    + cbn. exact H.
  - rewrite !state_of_bind. cbn [gets value_of state_of fst snd ret].
    unfold when. destruct (isActive (bubbleTimer s)) eqn:Et.
    + destruct (newBubble s) as [b |] eqn:E; [| discriminate H].
      rewrite (expandBubble_run s b E). cbn. exact Et.
    + cbn. rewrite Et. exact H.
  - rewrite paintEvent_state. exact H.
  - cbn. exact H.
  - destruct (setBubbles_keeps rnd fuel value s) as [H1 H2].
    rewrite H1, H2. exact H.
  - cbn. exact H.
  - cbn. exact H.
  - cbn. exact H.
  - cbn. exact H.
  - cbn. exact H.
  - cbn. exact H.
Qed.

Lemma initial_tracks (rnd : nat -> Q) (sz : QSize) :
  timer_tracks_pending (initial rnd sz).
Proof. apply tracks_bool. reflexivity. Qed.

(** C9.  In every state the widget can reach from its construction, by
    presses, moves, releases, ticks of either timer, repaints, resizes and
    calls of the setters and slots, the growth timer runs if and only if
    a bubble is pending. *)
Theorem growth_timer_iff_pending (rnd : nat -> Q) (s : BubblesWidget) :
  reachable rnd s ->
  isActive (bubbleTimer s) = true <-> newBubble s <> None.
Proof.
  intros Hreach. change (timer_tracks_pending s).
  induction Hreach as [sz | s ev s' o Hreach IH Hstep].
  - apply initial_tracks.
  - pose proof (handle_tracks rnd ev s IH) as H.
    rewrite Hstep in H. exact H.
Qed.

Lemma pressed_reachable : reachable sevenths pressed.
Proof.
  apply (reachable_step sevenths (initial sevenths (mkQSize 200 200))
                        (Press (press_at 100 50)) pressed [accept]).
  - apply reachable_initial.
  - vm_compute. reflexivity.
Qed.

Lemma growth_timer_iff_pending_witness :
  isActive (bubbleTimer pressed) = true <-> newBubble pressed <> None.
Proof.
  apply (growth_timer_iff_pending sevenths pressed). exact pressed_reachable.
Defined.


(** ** What [intersects] means for rectangles of positive size *)

Lemma axis_meets_overlap (p1 s1 p2 s2 : Q) :
  0 < s1 -> 0 < s2 ->
  (axis_meets p1 s1 p2 s2 = true <-> p1 < p2 + s2 /\ p2 < p1 + s1).
Proof.
  intros H1 H2. unfold axis_meets, span.
  destruct (Qlt_bool s1 0) eqn:E1; [apply Qlt_bool_iff in E1; lra |].
  destruct (Qlt_bool s2 0) eqn:E2; [apply Qlt_bool_iff in E2; lra |].
  destruct (Qeq_bool p1 (p1 + s1)) eqn:E3; [apply Qeq_bool_iff in E3; lra |].
  destruct (Qeq_bool p2 (p2 + s2)) eqn:E4; [apply Qeq_bool_iff in E4; lra |].
  destruct (Qle_bool (p2 + s2) p1) eqn:E5.
  - apply Qle_bool_iff in E5. cbn. split; [discriminate | lra].
  - destruct (Qle_bool (p1 + s1) p2) eqn:E6.
    + apply Qle_bool_iff in E6. cbn. split; [discriminate | lra].
    + cbn. split; [| reflexivity]. intros _.
      split; apply Qnot_le_lt; intros Hle; apply Qle_bool_iff in Hle;
        congruence.
Qed.

Lemma intersects_overlap (a b : QRectF) :
  0 < wd a -> 0 < ht a -> 0 < wd b -> 0 < ht b ->
  (intersects a b = true <->
   (xp a < xp b + wd b /\ xp b < xp a + wd a) /\
   (yp a < yp b + ht b /\ yp b < yp a + ht a)).
Proof.
  intros. unfold intersects. rewrite andb_true_iff.
  rewrite !axis_meets_overlap by assumption. reflexivity.
Qed.

(** ** The size of the widget *)

Lemma setBubbles_loop_frame (rnd : nat -> Q) (value : Z) (fuel : nat) :
  forall s, exists bs k,
    state_of (while_ fuel (n <- getBubbles ;; ret (n <? value)%Z)%handler
                     (appendRandomBubble rnd) s)
    = set_random_state k (set_bubbles bs s).
Proof.
  induction fuel as [| fuel IH]; intros s;
    destruct (Z.lt_ge_cases (len (bubbles s)) value) as [Hlt | Hge];
    try (rewrite setBubbles_loop_exit by exact Hge;
         exists (bubbles s), (random_state s); symmetry; apply set_same).
  - rewrite setBubbles_loop_out by exact Hlt.
    exists (bubbles s), (random_state s). symmetry. apply set_same.
  - rewrite setBubbles_loop_round by exact Hlt.
    destruct (IH (state_of (appendRandomBubble rnd s))) as [bs [k E]].
    rewrite E. exists bs, k. reflexivity.
Qed.

Lemma setBubbles_frame (rnd : nat -> Q) (fuel : nat) (value : Z)
      (s : BubblesWidget) :
  exists bs k,
    state_of (setBubbles rnd fuel value s)
    = set_random_state k (set_bubbles bs s).
Proof.
  rewrite setBubbles_unfold. cbv zeta.
  destruct (setBubbles_loop_frame rnd (py_max 0 value) fuel s) as [bs [k E]].
  destruct (while_ fuel _ _ s) as [[ended s1] o1].
  unfold state_of in *. cbn [fst snd] in E. subst s1.
  destruct ended; cbn [fst snd].
  - eexists. exists k. reflexivity.
  - exists bs, k. reflexivity.
Qed.

Lemma initial_sized (rnd : nat -> Q) (sz : QSize) : sized (initial rnd sz).
Proof.
  unfold sized. cbn. repeat split; lia.
Qed.

Lemma handle_sized (rnd : nat -> Q) (ev : Event) (s : BubblesWidget) :
  sized s -> sized (state_of (handle rnd ev s)).
Proof.
  intros H.
  destruct ev as [e | e | e | | | rect | sz | fuel value | c | c | name | | |];
    cbn [handle]; rewrite ?state_of_then_true.
  - unfold mousePressEvent. rewrite !state_of_bind.
    cbn [gets value_of state_of fst snd].
    destruct (button e), (newBubble s); exact H.
  - unfold mouseMoveEvent. rewrite !state_of_bind.
    cbn [gets value_of state_of fst snd].
    destruct (newBubble s); exact H.
  - unfold mouseReleaseEvent. rewrite !state_of_bind.
    cbn [gets value_of state_of fst snd].
    destruct (newBubble s); exact H.
  - rewrite !state_of_bind. cbn [gets value_of state_of fst snd ret].
    unfold when. destruct (isActive (animation_timer s)).
    + rewrite animate_run. exact H.
    + exact H.
  - rewrite !state_of_bind. cbn [gets value_of state_of fst snd ret].
    unfold when. destruct (isActive (bubbleTimer s)); [| exact H].
    unfold expandBubble. rewrite !state_of_bind.
    cbn [gets value_of state_of fst snd].
    destruct (newBubble s); exact H.
  - rewrite paintEvent_state. exact H.
  - destruct H as [Hm [Hw Hh]]. unfold sized. cbn. rewrite Hm. cbn.
    repeat split; lia.
  - destruct (setBubbles_frame rnd fuel value s) as [bs [k E]].
    rewrite E. exact H.
  - exact H.
  - exact H.
  - exact H.
  - exact H.
  - exact H.
  - exact H.
Qed.

(** Every state the widget can reach is at least 200 by 200. *)
Lemma reachable_sized (rnd : nat -> Q) (s : BubblesWidget) :
  reachable rnd s -> sized s.
Proof.
  intros Hreach. induction Hreach as [sz | s ev s' o Hreach IH Hstep].
  - apply initial_sized.
  - pose proof (handle_sized rnd ev s IH) as H.
    rewrite Hstep in H. exact H.
Qed.

(** ** The scenarios of the specification *)

(** Press at (100, 50) in a widget of 200 by 200, one growth tick, a move
    to (110, 50), release. *)
Example scenario_gesture :
  exists s1 s2 s3 s4 b1 b2 b4 o,
    run sevenths [Press (press_at 100 50)] (initial sevenths (mkQSize 200 200))
    = Some s1 /\
    newBubble s1 = Some b1 /\ radius b1 = 4 /\
    position b1 = mkQPointF 100 50 /\
    run sevenths [GrowthTick] s1 = Some s2 /\
    newBubble s2 = Some b2 /\ radius b2 == 8 /\
    run sevenths [Move (press_at 110 50)] s2 = Some s3 /\
    handle sevenths (Release (press_at 110 50)) s3 = (true, s4, o) /\
    bubbles s4 = [b4] /\ position b4 = mkQPointF 110 50 /\
    newBubble s4 = None /\
    signals o = [bubblesRemaining 1].
Proof.
  do 8 eexists.
  repeat (split; [vm_compute; reflexivity |]).
  split; vm_compute; reflexivity.
Qed.


(** ** Further properties of the handlers *)

(** *** The mouse *)

(** X1.  A move with a bubble pending puts that bubble at the pointer and
    changes nothing else of it, nor the collection or the timers; it asks
    for a repaint around the old and around the new place and accepts the
    event. *)
Theorem mouseMoveEvent_drags (event : QMouseEvent) (s : BubblesWidget)
        (b : Bubble) :
  newBubble s = Some b ->
  let r := mouseMoveEvent event s in
  exists b',
    newBubble (state_of r) = Some b' /\
    position b' = QPointF_of_QPoint (pos event) /\
    radius b' = radius b /\ speed b' = speed b /\
    innerColor b' = innerColor b /\ outerColor b' = outerColor b /\
    brush b' = brush b /\
    state_of r = set_newBubble (Some b') s /\
    log_of r = [update (damage b); update (damage b'); accept].
Proof.
  intros H r. subst r. unfold mouseMoveEvent, bind, gets. rewrite H.
  eexists. cbn. repeat split.
Qed.

Lemma mouseMoveEvent_drags_witness :
  newBubble pressed = Some pressed_bubble /\
  let r := mouseMoveEvent (press_at 110 50) pressed in
  exists b',
    newBubble (state_of r) = Some b' /\
    position b' = QPointF_of_QPoint (pos (press_at 110 50)) /\
    radius b' = radius pressed_bubble /\ speed b' = speed pressed_bubble /\
    innerColor b' = innerColor pressed_bubble /\
    outerColor b' = outerColor pressed_bubble /\
    brush b' = brush pressed_bubble /\
    state_of r = set_newBubble (Some b') pressed /\
    log_of r = [update (damage pressed_bubble); update (damage b'); accept].
Proof.
  split; [exact pressed_pending |].
  exact (mouseMoveEvent_drags (press_at 110 50) pressed pressed_bubble
                              pressed_pending).
Defined.

(** X2.  With no bubble pending, a move, a release and a growth tick
    leave the state as it is; the mouse events are still accepted. *)
Theorem idle_events_ignored (event : QMouseEvent) (s : BubblesWidget) :
  newBubble s = None ->
  mouseMoveEvent event s = (tt, s, [accept]) /\
  mouseReleaseEvent event s = (tt, s, [accept]) /\
  expandBubble s = (tt, s, []).
Proof.
  intros H. unfold mouseMoveEvent, mouseReleaseEvent, expandBubble, bind, gets.
  rewrite H. repeat split.
Qed.

Lemma initial_idle : newBubble (initial sevenths (mkQSize 200 200)) = None.
Proof. vm_compute. reflexivity. Qed.

Lemma idle_events_ignored_witness :
  let s := initial sevenths (mkQSize 200 200) in
  newBubble s = None /\
  mouseMoveEvent (press_at 110 50) s = (tt, s, [accept]) /\
  mouseReleaseEvent (press_at 110 50) s = (tt, s, [accept]) /\
  expandBubble s = (tt, s, []).
Proof.
  intros s. split; [exact initial_idle |].
  exact (idle_events_ignored (press_at 110 50) s initial_idle).
Defined.

(** X3.  A press of a button other than the left one changes nothing,
    draws no random value and is not accepted, pending bubble or not. *)
Theorem mousePressEvent_other_button (rnd : nat -> Q) (event : QMouseEvent)
        (s : BubblesWidget) :
  button event <> LeftButton ->
  mousePressEvent rnd event s = (tt, s, []).
Proof.
  intros H. unfold mousePressEvent, bind, gets.
  destruct (button event); try reflexivity.
  exfalso. apply H. reflexivity.
Qed.

Lemma mousePressEvent_other_button_witness :
  let s := initial sevenths (mkQSize 200 200) in
  let event := mkQMouseEvent RightButton (mkQPoint 100 50) in
  mousePressEvent sevenths event s = (tt, s, []).
Proof.
  intros s event.
  apply (mousePressEvent_other_button sevenths event s). discriminate.
Defined.

(** *** Colours *)

(** X4.  [randomColor] draws exactly four values and changes nothing else;
    red, green and blue are in \[205, 255\] and alpha is in
    \[91, 191\]. *)
Theorem randomColor_ranges (rnd : nat -> Q) (s : BubblesWidget) :
  unit_interval rnd ->
  exists red green blue alpha,
    randomColor rnd s =
    (QColor_rgba red green blue alpha,
     set_random_state (4 + random_state s) s, []) /\
    (205 <= red /\ red <= 255) /\ (205 <= green /\ green <= 255) /\
    (205 <= blue /\ blue <= 255) /\ (91 <= alpha /\ alpha <= 191).
Proof.
  intros Hrnd.
  destruct (Hrnd (random_state s)), (Hrnd (S (random_state s))),
    (Hrnd (S (S (random_state s)))), (Hrnd (S (S (S (random_state s))))).
  do 4 eexists. split; [reflexivity |].
  cbn [random_state set_random_state]. repeat split; lra.
Qed.

Lemma randomColor_ranges_witness :
  let s := initial sevenths (mkQSize 200 200) in
  exists red green blue alpha,
    randomColor sevenths s =
    (QColor_rgba red green blue alpha,
     set_random_state (4 + random_state s) s, []) /\
    (205 <= red /\ red <= 255) /\ (205 <= green /\ green <= 255) /\
    (205 <= blue /\ blue <= 255) /\ (91 <= alpha /\ alpha <= 191).
Proof.
  intros s. exact (randomColor_ranges sevenths s sevenths_unit_interval).
Defined.

(** *** The number of bubbles, read back *)

(** X5.  After [setBubbles], given fuel for the missing bubbles,
    [getBubbles] answers the value that was set, clamped below at zero. *)
Theorem getBubbles_after_setBubbles (rnd : nat -> Q) (fuel : nat) (value : Z)
        (s : BubblesWidget) :
  (Z.to_nat (py_max 0 value - len (bubbles s)) <= fuel)%nat ->
  value_of (getBubbles (state_of (setBubbles rnd fuel value s)))
  = py_max 0 value.
Proof.
  intros Hfuel. rewrite (setBubbles_run rnd fuel value s Hfuel).
  unfold getBubbles, gets, value_of, state_of.
  cbn [fst snd set_bubbles bubbles].
  assert (Hv : (0 <= py_max 0 value)%Z) by (rewrite py_max_0; lia).
  rewrite slice_to_nonneg by exact Hv.
  unfold len in *. rewrite length_firstn, length_app, randomBubbles_length.
  lia.
Qed.

Lemma getBubbles_after_setBubbles_witness :
  let s := initial sevenths (mkQSize 200 200) in
  value_of (getBubbles (state_of (setBubbles sevenths 5 5 s))) = py_max 0 5.
Proof.
  intros s. apply (getBubbles_after_setBubbles sevenths 5 5 s).
  vm_compute. lia.
Defined.

(** X6.  Setting the number of bubbles to the number there is leaves the
    whole state as it is, whatever the fuel, and draws no random value;
    the signal and the repaint are still issued. *)
Theorem setBubbles_same_count (rnd : nat -> Q) (fuel : nat) (value : Z)
        (s : BubblesWidget) :
  py_max 0 value = len (bubbles s) ->
  setBubbles rnd fuel value s =
  (true, s, [emit (bubblesRemaining (len (bubbles s))); update_all]).
Proof.
  intros Hv.
  rewrite setBubbles_run; rewrite Hv.
  - rewrite Z.sub_diag. cbn [Z.to_nat randomBubbles Nat.mul Nat.add].
    rewrite app_nil_r, slice_to_nonneg by apply len_nonneg.
    unfold len. rewrite Nat2Z.id, firstn_all.
    destruct s; reflexivity.
  - rewrite Z.sub_diag. cbn. lia.
Qed.

Lemma populated_count : py_max 0 3 = len (bubbles populated).
Proof. vm_compute. reflexivity. Qed.

Lemma setBubbles_same_count_witness :
  py_max 0 3 = len (bubbles populated) /\
  setBubbles sevenths 0 3 populated =
  (true, populated,
   [emit (bubblesRemaining (len (bubbles populated))); update_all]).
Proof.
  split; [exact populated_count |].
  exact (setBubbles_same_count sevenths 0 3 populated populated_count).
Defined.

(** *** The animation tick, counted *)

Lemma filter_split_length {A} (p : A -> bool) (l : list A) :
  (List.length (filter p l) + List.length (filter (fun x => negb (p x)) l))%nat
  = List.length l.
Proof.
  induction l as [| x l IH]; [reflexivity |].
  cbn. destruct (p x); cbn; lia.
Qed.

Lemma departures_app (o1 o2 : list Signal) :
  departures (o1 ++ o2) = (departures o1 + departures o2)%nat.
Proof.
  induction o1 as [| e o1 IH]; [reflexivity |].
  destruct e; cbn; rewrite IH; reflexivity.
Qed.

Lemma departures_repeat (n : nat) : departures (repeat bubbleLeft n) = n.
Proof. induction n as [| n IH]; cbn; [| rewrite IH]; reflexivity. Qed.

(** X7.  An animation tick loses no bubble silently: the bubbles before
    the tick are as many as the bubbles after it and the [bubbleLeft]
    signals of the tick together. *)
Theorem animate_accounts (s : BubblesWidget) :
  List.length (bubbles s) =
  (List.length (bubbles (state_of (animate s)))
   + departures (signals (log_of (animate s))))%nat.
Proof.
  rewrite animate_run. unfold state_of, log_of.
  cbn [fst snd set_bubbles bubbles].
  rewrite !signals_app, signals_animate_log, !departures_app,
    departures_repeat.
  assert (Hrest :
    departures
      (signals match newBubble s with
               | Some b => [update (damage b)]
               | None => []
               end) = O) by (destruct (newBubble s); reflexivity).
  rewrite Hrest.
  assert (Hlast :
    departures
      (signals
         (if existsb off_screen (map rise (bubbles s))
          then [emit (bubblesRemaining
                        (len (filter on_screen (map rise (bubbles s)))))]
          else [])) = O)
    by (destruct (existsb off_screen (map rise (bubbles s))); reflexivity).
  rewrite Hlast.
  pose proof (filter_split_length on_screen (map rise (bubbles s))) as Hsplit.
  rewrite length_map in Hsplit.
  change (fun x => negb (on_screen x)) with off_screen in Hsplit.
  lia.
Qed.

(** *** The regions scheduled for repaint *)

Lemma qRound_upper (d : Q) : inject_Z (qRound d) <= d + (1 # 2).
Proof. unfold qRound. apply Qfloor_le. Qed.

Lemma qRound_lower (d : Q) : d - (1 # 2) < inject_Z (qRound d).
Proof.
  unfold qRound. pose proof (Qlt_floor (d + (1 # 2))) as H.
  rewrite inject_Z_plus in H. change (inject_Z 1) with 1 in H. lra.
Qed.

(** X8.  The region [self.update] is given around a bubble, rounded to
    whole pixels as Qt does, contains the bounding box of the bubble. *)
Theorem damage_covers (b : Bubble) : covers (damage b) (boundingBox b).
Proof.
  unfold covers, damage, boundingBox, toRect, QRectF_of, QPointF_sub.
  cbn [rx ry rw rh xp yp wd ht fx fy fwidth fheight].
  rewrite !inject_Z_plus.
  pose proof (qRound_upper (fx (position b) - (radius b + 1))).
  pose proof (qRound_lower (fx (position b) - (radius b + 1))).
  pose proof (qRound_upper (fy (position b) - (radius b + 1))).
  pose proof (qRound_lower (fy (position b) - (radius b + 1))).
  pose proof (qRound_lower (2 * radius b + 2)).
  repeat split; lra.
Qed.

Lemma damage_moved_covers (b : Bubble) :
  0 <= speed b ->
  covers (damage_moved (rise b)) (boundingBox (rise b)) /\
  covers (damage_moved (rise b)) (boundingBox b).
Proof.
  intros Hs.
  unfold covers, damage_moved, boundingBox, toRect, QRectF_of, QPointF_sub,
    rise.
  cbn [rx ry rw rh xp yp wd ht fx fy fwidth fheight position radius speed].
  rewrite !inject_Z_plus.
  pose proof (qRound_upper (fx (position b) - (radius b + 1))).
  pose proof (qRound_lower (fx (position b) - (radius b + 1))).
  pose proof (qRound_upper (fy (position b) - speed b - (radius b + 1))).
  pose proof (qRound_lower (fy (position b) - speed b - (radius b + 1))).
  pose proof (qRound_lower (2 * radius b + 2)).
  pose proof (qRound_lower (2 * radius b + 2 + speed b)).
  repeat split; lra.
Qed.

Lemma animate_log_update (bs : list Bubble) (b : Bubble) :
  In b bs -> In (update (damage_moved (rise b))) (animate_log bs).
Proof.
  intros Hin. unfold animate_log. apply in_flat_map.
  exists b. split; [exact Hin | left; reflexivity].
Qed.

(** X9.  An animation tick asks, for every bubble of the collection whose
    speed is not negative, for the repaint of a region that contains the
    bounding box of the bubble before the move and after it. *)
Theorem animate_repaints (s : BubblesWidget) (b : Bubble) :
  In b (bubbles s) ->
  0 <= speed b ->
  exists r,
    In (update r) (log_of (animate s)) /\
    covers r (boundingBox b) /\
    covers r (boundingBox (rise b)).
Proof.
  intros Hin Hs. exists (damage_moved (rise b)).
  destruct (damage_moved_covers b Hs) as [Hnew Hold].
  split; [| split; assumption].
  rewrite animate_run. unfold log_of. cbn [snd].
  apply in_or_app. left. apply animate_log_update. exact Hin.
Qed.

Lemma animate_repaints_witness :
  let b := Bubble_init (mkQPointF 120 130) 5 2 plain plain in
  In b (bubbles populated) /\
  0 <= speed b /\
  exists r,
    In (update r) (log_of (animate populated)) /\
    covers r (boundingBox b) /\
    covers r (boundingBox (rise b)).
Proof.
  intros b.
  assert (Hin : In b (bubbles populated))
    by (right; left; vm_compute; reflexivity).
  assert (Hs : 0 <= speed b) by (vm_compute; discriminate).
  split; [exact Hin |]. split; [exact Hs |].
  exact (animate_repaints populated b Hin Hs).
Defined.

(** *** Several animation ticks *)

Lemma filter_map {A B} (p : B -> bool) (f : A -> B) (l : list A) :
  filter p (map f l) = map f (filter (fun x => p (f x)) l).
Proof.
  induction l as [| x l IH]; [reflexivity |].
  cbn. destruct (p (f x)); cbn; rewrite IH; reflexivity.
Qed.

Lemma subseq_trans {A} (l1 l2 l3 : list A) :
  subseq l1 l2 -> subseq l2 l3 -> subseq l1 l3.
Proof.
  intros H12 H23. revert l1 H12.
  induction H23 as [| x l2 l3 _ IH | x l2 l3 _ IH]; intros l1 H12.
  - exact H12.
  - apply subseq_skip. apply IH. exact H12.
  - inversion H12; subst.
    + apply subseq_skip. apply IH. assumption.
    + apply subseq_keep. apply IH. assumption.
Qed.

Lemma same_but_height_trans (a b c : Bubble) :
  same_but_height a b -> same_but_height b c -> same_but_height a c.
Proof.
  unfold same_but_height.
  intros [H1 [H2 [H3 [H4 [H5 H6]]]]] [G1 [G2 [G3 [G4 [G5 G6]]]]].
  repeat split; congruence.
Qed.

(** The bubbles a tick keeps, traced back through a list they came from. *)
Lemma survivors_step (old now : list Bubble) :
  Forall2 same_but_height old now ->
  exists old',
    subseq old' old /\
    Forall2 same_but_height old' (filter on_screen (map rise now)).
Proof.
  induction 1 as [| a b old now Hab _ [old' [Hsub Hall]]].
  - exists []. split; constructor.
  - cbn [map filter]. destruct (on_screen (rise b)).
    + exists (a :: old'). split; [apply subseq_keep; exact Hsub |].
      constructor; [| exact Hall].
      apply (same_but_height_trans a b (rise b) Hab).
      apply rise_same_but_height.
    + exists old'. split; [apply subseq_skip; exact Hsub | exact Hall].
Qed.

Lemma ticks_step (k : nat) (s : BubblesWidget) :
  bubbles (ticks (S k) s)
  = filter on_screen (map rise (bubbles (ticks k s))).
Proof.
  change (ticks (S k) s) with (state_of (animate (ticks k s))).
  rewrite animate_run. reflexivity.
Qed.

(** X10.  After any number of animation ticks the collection is made, in
    the same order, of bubbles of the collection before the ticks, each
    with its horizontal coordinate, radius, speed, colours and brush as
    before: a bubble that left does not come back and no bubble is
    added; and a further tick never makes the collection longer. *)
Theorem ticks_keep_order (k : nat) (s : BubblesWidget) :
  (exists survivors,
      subseq survivors (bubbles s) /\
      Forall2 same_but_height survivors (bubbles (ticks k s))) /\
  (List.length (bubbles (ticks (S k) s))
   <= List.length (bubbles (ticks k s)))%nat.
Proof.
  split.
  - induction k as [| k [old [Hsub Hall]]].
    + exists (bubbles s). split.
      * induction (bubbles s) as [| b l IH]; constructor; exact IH.
      * cbn. induction (bubbles s) as [| b l IH]; constructor;
          [unfold same_but_height; repeat split | exact IH].
    + destruct (survivors_step old (bubbles (ticks k s)) Hall)
        as [old' [Hsub' Hall']].
      exists old'. rewrite ticks_step.
      split; [exact (subseq_trans _ _ _ Hsub' Hsub) | exact Hall'].
  - rewrite ticks_step, filter_map, length_map.
    apply filter_length_le.
Qed.

(** *** A whole gesture *)

Lemma run_app (rnd : nat -> Q) (evs1 evs2 : list Event) :
  forall s,
    run rnd (evs1 ++ evs2) s =
    match run rnd evs1 s with
    | Some s1 => run rnd evs2 s1
    | None => None
    end.
Proof.
  induction evs1 as [| ev evs1 IH]; intros s; [reflexivity |].
  cbn [app run]. destruct (handle rnd ev s) as [[ok s1] o].
  destruct ok; [apply IH | reflexivity].
Qed.

Lemma gesture_event_keeps (rnd : nat -> Q) (ev : Event) (s : BubblesWidget)
      (b : Bubble) :
  gesture_event ev ->
  newBubble s = Some b ->
  exists s' o b',
    handle rnd ev s = (true, s', o) /\
    bubbles s' = bubbles s /\ newBubble s' = Some b'.
Proof.
  intros Hev Hb. destruct ev; try contradiction; cbn [handle].
  - unfold mouseMoveEvent, bind, gets, ret. rewrite Hb.
    do 3 eexists. split; [reflexivity |]. split; reflexivity.
  - unfold bind at 1 2. unfold gets, when.
    destruct (isActive (bubbleTimer s)).
    + rewrite (expandBubble_run s b Hb).
      do 3 eexists. split; [reflexivity |]. split; reflexivity.
    + do 3 eexists. split; [reflexivity |]. split; [reflexivity | exact Hb].
Qed.

Lemma gesture_events_keep (rnd : nat -> Q) (evs : list Event) :
  Forall gesture_event evs ->
  forall s b,
    newBubble s = Some b ->
    exists s' b',
      run rnd evs s = Some s' /\
      bubbles s' = bubbles s /\ newBubble s' = Some b'.
Proof.
  induction 1 as [| ev evs Hev _ IH]; intros s b Hb.
  - exists s, b. repeat split. exact Hb.
  - destruct (gesture_event_keeps rnd ev s b Hev Hb)
      as [s1 [o [b1 [Hh [Hbs Hb1]]]]].
    destruct (IH s1 b1 Hb1) as [s' [b' [Hrun [Hbs' Hb']]]].
    exists s', b'. cbn [run]. rewrite Hh.
    split; [exact Hrun |]. split; [congruence | exact Hb'].
Qed.

(** X11.  A gesture -- a left press with no bubble pending, then any
    growth ticks and moves, then a release -- is handled to its end and
    adds exactly one bubble, at the end of the collection; after it no
    bubble is pending and the growth timer is stopped. *)
Theorem gesture_adds_one (rnd : nat -> Q) (e e' : QMouseEvent)
        (mids : list Event) (s : BubblesWidget) :
  button e = LeftButton ->
  newBubble s = None ->
  Forall gesture_event mids ->
  exists s' b,
    run rnd (Press e :: mids ++ [Release e']) s = Some s' /\
    bubbles s' = bubbles s ++ [b] /\
    newBubble s' = None /\
    isActive (bubbleTimer s') = false.
Proof.
  intros Hleft Hnone Hmids.
  assert (Hpress : exists s1 o b1,
             handle rnd (Press e) s = (true, s1, o) /\
             bubbles s1 = bubbles s /\ newBubble s1 = Some b1).
  { cbn [handle]. unfold mousePressEvent, bind, gets.
    rewrite Hleft, Hnone. cbn [MouseButton_eqb andb].
    do 3 eexists. split; [reflexivity |]. split; reflexivity. }
  destruct Hpress as [s1 [o1 [b1 [Hh1 [Hbs1 Hb1]]]]].
  destruct (gesture_events_keep rnd mids Hmids s1 b1 Hb1)
    as [s2 [b2 [Hrun [Hbs2 Hb2]]]].
  assert (Hrel : exists s3 o,
             handle rnd (Release e') s2 = (true, s3, o) /\
             bubbles s3 = bubbles s2 ++ [b2] /\ newBubble s3 = None /\
             isActive (bubbleTimer s3) = false).
  { cbn [handle]. unfold mouseReleaseEvent, bind, gets. rewrite Hb2.
    do 2 eexists. split; [reflexivity |]. repeat split. }
  destruct Hrel as [s3 [o3 [Hh3 [Hbs3 [Hn3 Ht3]]]]].
  exists s3, b2. cbn [run]. rewrite Hh1, run_app, Hrun. cbn [run].
  rewrite Hh3. split; [reflexivity |].
  split; [congruence |]. split; assumption.
Qed.

Lemma gesture_adds_one_witness :
  let s := initial sevenths (mkQSize 200 200) in
  exists s' b,
    run sevenths
        (Press (press_at 100 50)
           :: [GrowthTick; Move (press_at 110 50); GrowthTick]
           ++ [Release (press_at 110 50)]) s = Some s' /\
    bubbles s' = bubbles s ++ [b] /\
    newBubble s' = None /\
    isActive (bubbleTimer s') = false.
Proof.
  intros s.
  apply (gesture_adds_one sevenths (press_at 100 50) (press_at 110 50)
           [GrowthTick; Move (press_at 110 50); GrowthTick] s).
  - reflexivity.
  - exact initial_idle.
  - repeat constructor.
Defined.

(** *** Painting nothing *)

Lemma axis_meets_null (p1 s1 p2 : Q) : axis_meets p1 s1 p2 0 = false.
Proof.
  unfold axis_meets, span.
  change (Qlt_bool 0 0) with false. cbv iota.
  assert (H : Qeq_bool p2 (p2 + 0) = true) by (apply Qeq_bool_iff; lra).
  destruct (Qlt_bool s1 0); cbv iota beta;
    match goal with
    | |- (if ?c then _ else _) = _ => destruct c; [reflexivity |]
    end; rewrite H; reflexivity.
Qed.

Lemma visible_null (rect : QRect) (b : Bubble) :
  rw rect = 0%Z \/ rh rect = 0%Z -> visible rect b = false.
Proof.
  intros [H | H]; unfold visible, intersects, QRectF_of_QRect;
    cbn [xp yp wd ht]; rewrite H; change (inject_Z 0) with 0;
    rewrite axis_meets_null.
  - reflexivity.
  - apply andb_false_r.
Qed.

(** X12.  For a region of no width or of no height [paintEvent] draws no
    bubble of the collection: it fills the background, draws the pending
    bubble if there is one, and ends. *)
Theorem paintEvent_null_region (rect : QRect) (s : BubblesWidget) :
  rw rect = 0%Z \/ rh rect = 0%Z ->
  paintEvent rect s =
  (tt, s,
   map paint
     ([ painter_begin; setRenderHint_Antialiasing;
        fillRect rect (backgroundBrush s); setPen (pen s) ]
      ++ match newBubble s with Some b => drawBubble b | None => [] end
      ++ [ painter_end ])).
Proof.
  intros Hnull.
  assert (Hnone : filter (visible rect) (bubbles s) = []).
  { induction (bubbles s) as [| b l IH]; [reflexivity |].
    cbn. rewrite (visible_null rect b Hnull). exact IH. }
  unfold paintEvent, bind, gets, tell. rewrite paint_loop, Hnone.
  destruct (newBubble s) as [b |].
  - rewrite tell_all_run. rewrite !map_app. reflexivity.
  - reflexivity.
Qed.

Lemma paintEvent_null_region_witness :
  let rect := mkQRect 0 0 0 15 in
  paintEvent rect populated =
  (tt, populated,
   map paint
     ([ painter_begin; setRenderHint_Antialiasing;
        fillRect rect (backgroundBrush populated); setPen (pen populated) ]
      ++ match newBubble populated with
         | Some b => drawBubble b
         | None => []
         end
      ++ [ painter_end ])).
Proof.
  intros rect. apply (paintEvent_null_region rect populated).
  left. reflexivity.
Defined.

(** *** The colours of the background *)

(** X14.  After [setColor1] and [setColor2], in either order, the
    getters answer the colours set and the next [paintEvent] fills its
    region with the gradient from the first colour, at 0, to the second,
    at 1; the bubbles, the pending bubble and the timers are not
    touched. *)
Theorem setColors_then_paint (c1 c2 : QColor) (s : BubblesWidget) :
  let s12 := state_of (setColor2 c2 (state_of (setColor1 c1 s))) in
  state_of (setColor1 c1 (state_of (setColor2 c2 s))) = s12 /\
  value_of (getColor1 s12) = c1 /\ value_of (getColor2 s12) = c2 /\
  s12 = set_backgroundColor2 c2 (set_backgroundColor1 c1 s) /\
  (forall rect,
      In (paint (fillRect rect
                   (QBrush_of
                      (mkQRadialGradient
                         (mkQPointF 0 0) 500
                         (mkQPointF (inject_Z (width s - 1))
                                    (inject_Z (height s - 1)))
                         [(0, c1); (1, c2)]))))
         (log_of (paintEvent rect s12))).
Proof.
  cbv zeta. repeat split.
  intros rect. unfold paintEvent, bind, gets, tell. rewrite paint_loop.
  match goal with
  | |- context [match newBubble ?x with _ => _ end] =>
      destruct (newBubble x); [rewrite tell_all_run |]
  end; unfold log_of; cbn [snd app]; right; right; left; reflexivity.
Qed.

(** *** What holds of every bubble the widget ever has *)

Lemma Forall_firstn {A} (P : A -> Prop) (n : nat) (l : list A) :
  Forall P l -> Forall P (firstn n l).
Proof.
  intros H. revert n. induction H as [| x l Hx _ IH]; intros [| n]; cbn;
    constructor; [exact Hx | apply IH].
Qed.

Lemma Forall_slice_to {A} (P : A -> Prop) (n : Z) (l : list A) :
  Forall P l -> Forall P (slice_to l n).
Proof.
  intros H. unfold slice_to. destruct (n <? 0)%Z; apply Forall_firstn; exact H.
Qed.

Section EveryBubble.

Variable rnd : nat -> Q.
Variable P : Bubble -> Prop.

Hypothesis P_place : forall b p, P b -> P (set_position p b).
Hypothesis P_rise : forall b, P b -> P (rise b).
Hypothesis P_random : forall k wi he, P (randomBubble rnd k wi he).
Hypothesis P_press :
  forall p k inner outer, P (Bubble_init p 4 (1 + rnd k * 7) inner outer).
Hypothesis P_grow :
  forall b wi he,
    (200 <= wi)%Z -> (200 <= he)%Z -> P b ->
    P (updateBrush
         (set_radius (py_min3 (radius b + 4) (inject_Z wi / 8)
                              (inject_Z he / 8)) b)).

Lemma setBubbles_loop_appends (value : Z) (fuel : nat) :
  forall s, exists new k,
    state_of (while_ fuel (n <- getBubbles ;; ret (n <? value)%Z)%handler
                     (appendRandomBubble rnd) s)
    = set_random_state k (set_bubbles (bubbles s ++ new) s) /\
    Forall P new.
Proof.
  induction fuel as [| fuel IH]; intros s;
    destruct (Z.lt_ge_cases (len (bubbles s)) value) as [Hlt | Hge];
    try (rewrite setBubbles_loop_exit by exact Hge;
         exists [], (random_state s); rewrite app_nil_r;
         split; [symmetry; apply set_same | constructor]).
  - rewrite setBubbles_loop_out by exact Hlt.
    exists [], (random_state s). rewrite app_nil_r.
    split; [symmetry; apply set_same | constructor].
  - rewrite setBubbles_loop_round by exact Hlt.
    destruct (IH (state_of (appendRandomBubble rnd s))) as [new [k [E Hnew]]].
    rewrite E.
    exists (randomBubble rnd (random_state s) (width s) (height s) :: new), k.
    split.
    + unfold state_of. rewrite appendRandomBubble_run.
      cbn [fst snd set_random_state set_bubbles bubbles].
      rewrite <- app_assoc. reflexivity.
    + constructor; [apply P_random | exact Hnew].
Qed.

Lemma setBubbles_every (fuel : nat) (value : Z) (s : BubblesWidget) :
  every_bubble P s -> every_bubble P (state_of (setBubbles rnd fuel value s)).
Proof.
  intros [Hall Hpend].
  destruct (setBubbles_keeps rnd fuel value s) as [Hnb _].
  split; [| rewrite Hnb; exact Hpend].
  rewrite setBubbles_unfold. cbv zeta.
  destruct (setBubbles_loop_appends (py_max 0 value) fuel s)
    as [new [k [E Hnew]]].
  destruct (while_ fuel _ _ s) as [[ended s1] o1].
  unfold state_of in *. cbn [fst snd] in E. subst s1.
  assert (Hboth : Forall P (bubbles s ++ new))
    by (apply Forall_app; split; assumption).
  destruct ended; cbn [fst snd set_bubbles set_random_state bubbles].
  - apply Forall_slice_to. exact Hboth.
  - exact Hboth.
Qed.

Lemma handle_every (ev : Event) (s : BubblesWidget) :
  sized s -> every_bubble P s -> every_bubble P (state_of (handle rnd ev s)).
Proof.
  intros [_ [Hw Hh]] Hevery.
  assert (Hall : Forall P (bubbles s)) by apply Hevery.
  destruct ev as [e | e | e | | | rect | sz | fuel value | c | c | name | | |];
    cbn [handle]; rewrite ?state_of_then_true; try exact Hevery.
  - unfold mousePressEvent. rewrite !state_of_bind.
    cbn [gets value_of state_of fst snd].
    destruct (button e); cbn [andb MouseButton_eqb]; try exact Hevery.
    destruct (newBubble s) as [b0 |] eqn:E; [exact Hevery |].
    rewrite ?state_of_bind. split; [exact Hall |].
    intros nb Hnb. cbn in Hnb. injection Hnb as <-. apply P_press.
  - unfold mouseMoveEvent. rewrite !state_of_bind.
    cbn [gets value_of state_of fst snd].
    destruct (newBubble s) as [b0 |] eqn:E; [| exact Hevery].
    rewrite ?state_of_bind. split; [exact Hall |].
    intros nb Hnb. cbn in Hnb. injection Hnb as <-.
    apply P_place. apply Hevery. exact E.
  - unfold mouseReleaseEvent. rewrite !state_of_bind.
    cbn [gets value_of state_of fst snd].
    destruct (newBubble s) as [b0 |] eqn:E; [| exact Hevery].
    rewrite ?state_of_bind. split.
    + cbn. apply Forall_app. split; [exact Hall |].
      constructor; [apply Hevery; exact E | constructor].
    + intros nb Hnb. cbn in Hnb. discriminate Hnb.
  - rewrite !state_of_bind. cbn [gets value_of state_of fst snd ret].
    unfold when. destruct (isActive (animation_timer s)); [| exact Hevery].
    rewrite animate_run. cbn [fst snd]. split; [| apply Hevery].
    cbn [set_bubbles bubbles]. rewrite filter_map.
    apply Forall_map. apply Forall_forall. intros b Hb.
    apply filter_In in Hb. destruct Hb as [Hb _].
    apply P_rise. rewrite Forall_forall in Hall. apply Hall. exact Hb.
  - rewrite !state_of_bind. cbn [gets value_of state_of fst snd ret].
    unfold when. destruct (isActive (bubbleTimer s)); [| exact Hevery].
    destruct (newBubble s) as [b0 |] eqn:E.
    + rewrite (expandBubble_run s b0 E). cbn [fst snd].
      split; [exact Hall |].
      intros nb Hnb. cbn in Hnb. injection Hnb as <-.
      apply (P_grow b0 (width s) (height s) Hw Hh). apply Hevery. exact E.
    + unfold expandBubble. rewrite !state_of_bind.
      cbn [gets value_of state_of fst snd]. rewrite E. exact Hevery.
  - rewrite paintEvent_state. exact Hevery.
  - apply setBubbles_every. exact Hevery.
Qed.

Lemma reachable_every (s : BubblesWidget) :
  reachable rnd s -> every_bubble P s.
Proof.
  intros Hreach. induction Hreach as [sz | s ev s' o Hreach IH Hstep].
  - split; [constructor | intros b Hb; discriminate Hb].
  - pose proof (handle_every ev s (reachable_sized rnd s Hreach) IH) as H.
    rewrite Hstep in H. exact H.
Qed.

End EveryBubble.

(** X15.  In every state the widget can reach, every bubble of the
    collection and the pending bubble carry the brush of their current
    radius and colours: no bubble is ever painted with a stale brush. *)
Theorem brushes_fresh (rnd : nat -> Q) (s : BubblesWidget) :
  reachable rnd s -> every_bubble fresh_brush s.
Proof.
  apply reachable_every; unfold fresh_brush.
  - intros b p H. exact H.
  - intros b H. exact H.
  - reflexivity.
  - reflexivity.
  - reflexivity.
Qed.

Lemma brushes_fresh_witness : every_bubble fresh_brush pressed.
Proof. exact (brushes_fresh sevenths pressed pressed_reachable). Defined.

(** X16.  In every state the widget can reach, with the random values in
    \[0, 1), every bubble of the collection and the pending bubble have a
    radius of at least 4 and a speed in \[1, 8). *)
Theorem bubbles_in_bounds (rnd : nat -> Q) (s : BubblesWidget) :
  unit_interval rnd ->
  reachable rnd s -> every_bubble in_bounds s.
Proof.
  intros Hrnd. apply reachable_every; unfold in_bounds.
  - intros b p H. exact H.
  - intros b H. exact H.
  - intros k wi he. cbn.
    destruct (Hrnd (S (S k))), (Hrnd (S (S (S k)))). repeat split; lra.
  - intros p k inner outer. cbn. destruct (Hrnd k). repeat split; lra.
  - intros b wi he Hw Hh [Hr Hs]. cbn [radius speed updateBrush set_radius].
    split; [| exact Hs].
    rewrite Zle_Qle in Hw, Hh. change (inject_Z 200) with 200 in Hw, Hh.
    destruct (py_min3_cases (radius b + 4) (inject_Z wi / 8) (inject_Z he / 8))
      as [[-> _] | [[-> _] | [-> _]]];
      unfold Qdiv; change (/ 8) with (1 # 8); lra.
Qed.

Lemma bubbles_in_bounds_witness : every_bubble in_bounds pressed.
Proof.
  exact (bubbles_in_bounds sevenths pressed sevenths_unit_interval
                           pressed_reachable).
Defined.


(** *** Growing for several ticks *)

Lemma grows_pending (k : nat) (s : BubblesWidget) (b : Bubble) :
  newBubble s = Some b ->
  exists b',
    newBubble (grows (S k) s) = Some b' /\
    radius b' == Qmin (radius b + 4 * inject_Z (Z.of_nat (S k))) (cap s) /\
    position b' = position b /\ speed b' = speed b /\
    cap (grows (S k) s) = cap s.
Proof.
  intros Hb. induction k as [| k IH].
  - change (grows 1 s) with (state_of (expandBubble s)).
    rewrite (expandBubble_run s b Hb). cbv zeta.
    eexists. split; [reflexivity |]. cbn [radius updateBrush set_radius].
    split; [| repeat split].
    rewrite py_min3_cap. change (inject_Z (Z.of_nat 1)) with 1.
    destruct (Q.min_spec (radius b + 4) (cap s)) as [[? ->] | [? ->]];
      destruct (Q.min_spec (radius b + 4 * 1) (cap s)) as [[? ->] | [? ->]];
      lra.
  - destruct IH as [b1 [Hb1 [Hr1 [Hp1 [Hs1 Hc1]]]]].
    change (grows (S (S k)) s)
      with (state_of (expandBubble (grows (S k) s))).
    rewrite (expandBubble_run _ b1 Hb1). cbv zeta.
    eexists. split; [reflexivity |]. cbn [radius updateBrush set_radius].
    split; [| repeat split; assumption].
    rewrite py_min3_cap, Hc1, Hr1.
    rewrite (Nat2Z.inj_succ (S k)). unfold Z.succ. rewrite inject_Z_plus.
    change (inject_Z 1) with 1.
    set (n := inject_Z (Z.of_nat (S k))).
    destruct (Q.min_spec (radius b + 4 * n) (cap s)) as [[? Hm] | [? Hm]];
      rewrite Hm;
      destruct (Q.min_spec (radius b + 4 * n + 4) (cap s)) as [[? Hn] | [? Hn]];
      destruct (Q.min_spec (cap s + 4) (cap s)) as [[? Ho] | [? Ho]];
      destruct (Q.min_spec (radius b + 4 * (n + 1)) (cap s)) as [[? Hq] | [? Hq]];
      rewrite ?Hn, ?Ho, ?Hq; lra.
Qed.

(** X18.  With a bubble of radius [r] pending and the size of the widget
    unchanged, [k >= 1] growth ticks leave the radius at
    [min(r + 4k, c)], for [c] one eighth of the smaller side: the bubble
    grows by four a tick until it reaches the bound and stays there; its
    position and its speed are not touched. *)
Theorem grows_closed_form (k : nat) (s : BubblesWidget) (b : Bubble) :
  newBubble s = Some b ->
  exists b',
    newBubble (grows (S k) s) = Some b' /\
    radius b' == Qmin (radius b + 4 * inject_Z (Z.of_nat (S k))) (cap s) /\
    position b' = position b /\ speed b' = speed b.
Proof.
  intros Hb. destruct (grows_pending k s b Hb) as [b' [H1 [H2 [H3 [H4 _]]]]].
  exists b'. repeat split; assumption.
Qed.

Lemma grows_closed_form_witness :
  newBubble pressed = Some pressed_bubble /\
  exists b',
    newBubble (grows 10 pressed) = Some b' /\
    radius b' == Qmin (radius pressed_bubble + 4 * inject_Z (Z.of_nat 10))
                      (cap pressed) /\
    position b' = position pressed_bubble /\ speed b' = speed pressed_bubble.
Proof.
  split; [exact pressed_pending |].
  exact (grows_closed_form 9 pressed pressed_bubble pressed_pending).
Defined.

(** X19.  Dragging and growing do not interfere: a move followed by a
    growth tick leaves the state a growth tick followed by the same move
    leaves. *)
Theorem move_expand_commute (event : QMouseEvent) (s : BubblesWidget) :
  state_of (expandBubble (state_of (mouseMoveEvent event s)))
  = state_of (mouseMoveEvent event (state_of (expandBubble s))).
Proof.
  unfold mouseMoveEvent, expandBubble.
  rewrite !state_of_bind. cbn [gets value_of state_of fst snd].
  destruct (newBubble s) as [b |] eqn:E.
  - rewrite !state_of_bind. cbn. reflexivity.
  - cbn. rewrite E. reflexivity.
Qed.

(** *** What the handlers leave alone *)

(** X20.  Handling an event never changes the pen, the mouse tracking,
    the minimum size or the window title.  The author changes only when
    it is set or reset, a background colour only through its setter, the
    animation timer only through [stop] and [start], the size only by a
    resize, and the growth timer and the existence of a pending bubble
    only by a press or a release. *)
Theorem handlers_frame (rnd : nat -> Q) (ev : Event) (s : BubblesWidget) :
  let s' := state_of (handle rnd ev s) in
  (pen s' = pen s /\ mouseTracking s' = mouseTracking s /\
   minimumSize s' = minimumSize s /\ windowTitle s' = windowTitle s) /\
  match ev with
  | SetAuthor _ | ResetAuthor => True
  | _ => _author s' = _author s
  end /\
  match ev with
  | SetColor1 _ => True
  | _ => backgroundColor1 s' = backgroundColor1 s
  end /\
  match ev with
  | SetColor2 _ => True
  | _ => backgroundColor2 s' = backgroundColor2 s
  end /\
  match ev with
  | Stop | Start => True
  | _ => animation_timer s' = animation_timer s
  end /\
  match ev with
  | Resize _ => True
  | _ => width s' = width s /\ height s' = height s
  end /\
  match ev with
  | Press _ | Release _ => True
  | _ => bubbleTimer s' = bubbleTimer s /\
         (newBubble s' = None <-> newBubble s = None)
  end.
Proof.
  cbv zeta.
  destruct ev as [e | e | e | | | rect | sz | fuel value | c | c | name | | |];
    cbn [handle]; rewrite ?state_of_then_true.
  - unfold mousePressEvent. rewrite !state_of_bind.
    cbn [gets value_of state_of fst snd].
    destruct (button e), (newBubble s); cbn; repeat split.
  - unfold mouseMoveEvent. rewrite !state_of_bind.
    cbn [gets value_of state_of fst snd].
    destruct (newBubble s) eqn:E; cbn; rewrite ?E; repeat split;
      try discriminate; try reflexivity.
  - unfold mouseReleaseEvent. rewrite !state_of_bind.
    cbn [gets value_of state_of fst snd].
    destruct (newBubble s); cbn; repeat split.
  - rewrite !state_of_bind. cbn [gets value_of state_of fst snd ret].
    unfold when. destruct (isActive (animation_timer s)).
    + rewrite animate_run. cbn. repeat split; intros H; exact H.
    + cbn. repeat split; intros H; exact H.
  - rewrite !state_of_bind. cbn [gets value_of state_of fst snd ret].
    unfold when. destruct (isActive (bubbleTimer s)).
    + unfold expandBubble. rewrite !state_of_bind.
      cbn [gets value_of state_of fst snd].
      destruct (newBubble s) eqn:E; cbn; rewrite ?E; repeat split;
        try discriminate; try reflexivity.
    + cbn. repeat split; intros H; exact H.
  - rewrite paintEvent_state. repeat split; intros H; exact H.
  - cbn. repeat split; intros H; exact H.
  - destruct (setBubbles_frame rnd fuel value s) as [bs [k E]].
    rewrite E. cbn. repeat split; intros H; exact H.
  - cbn. repeat split; intros H; exact H.
  - cbn. repeat split; intros H; exact H.
  - cbn. repeat split; intros H; exact H.
  - cbn. repeat split; intros H; exact H.
  - cbn. repeat split; intros H; exact H.
  - cbn. repeat split; intros H; exact H.
Qed.

(** *** The widget as built *)

(** X21.  Whatever size Qt gave it and whatever the random values,
    [__init__] leaves a widget of at least 200 by 200 with no bubble and
    none pending, the animation timer running every 25 ms, the growth
    timer not running, the default author, and eight random values
    consumed for the two background colours, the second one darkened. *)
Theorem initial_state (rnd : nat -> Q) (sz : QSize) :
  let s := initial rnd sz in
  bubbles s = [] /\ newBubble s = None /\
  animation_timer s = mkQTimer true 25 false /\
  isActive (bubbleTimer s) = false /\
  _author s = "David Boddie"%string /\
  width s = Z.max (iwidth sz) 200 /\ height s = Z.max (iheight sz) 200 /\
  minimumSize s = mkQSize 200 200 /\
  random_state s = 8%nat /\
  backgroundColor1 s =
    QColor_rgba (205 + rnd 0%nat * 50) (205 + rnd 1%nat * 50)
                (205 + rnd 2%nat * 50) (91 + rnd 3%nat * 100) /\
  backgroundColor2 s =
    darker (QColor_rgba (205 + rnd 4%nat * 50) (205 + rnd 5%nat * 50)
                        (205 + rnd 6%nat * 50) (91 + rnd 7%nat * 100)) 150.
Proof. cbv zeta. repeat split. Qed.

(** ** The animation tick in binary64 *)

Section Binary64Facts.

Import Floats.
Import Binary64.

Variables Color Brush : Type.

Lemma b64_moved_is_rise (b : Bubble Color Brush) :
  set_position
    (QPointF_add (position b) (mkQPointF 0 (- speed b)%float)) b
  = rise b.
Proof. reflexivity. Qed.

Lemma b64_animate_loop (todo : list (Bubble Color Brush)) :
  forall acc lf,
    animate_loop todo acc lf =
    (acc ++ filter on_screen (map rise todo),
     lf || existsb off_screen (map rise todo),
     animate_log todo).
Proof.
  induction todo as [| b todo IH]; intros acc lf.
  - cbn. rewrite app_nil_r, orb_false_r. reflexivity.
  - cbn [animate_loop map filter existsb animate_log flat_map].
    rewrite b64_moved_is_rise.
    change (0 <? fy (position (rise b)) + radius (rise b))%float
      with (on_screen (rise b)).
    unfold off_screen at 1.
    destruct (on_screen (rise b)); rewrite IH; cbn.
    + rewrite <- app_assoc. reflexivity.
    + rewrite orb_true_r. reflexivity.
Qed.

Lemma b64_animate_run (self : BubblesWidget Color Brush) :
  animate self =
  (mkBubblesWidget (filter on_screen (map rise (bubbles self)))
                   (newBubble self),
   animate_log (bubbles self)
   ++ match newBubble self with
      | Some b => [update (damage b)]
      | None => []
      end
   ++ (if existsb off_screen (map rise (bubbles self))
       then [emit (bubblesRemaining
                     (len (filter on_screen (map rise (bubbles self)))))]
       else [])).
Proof. unfold animate. rewrite b64_animate_loop. reflexivity. Qed.

Lemma b64_signals_app (o1 o2 : list Effect) :
  signals (o1 ++ o2) = signals o1 ++ signals o2.
Proof.
  induction o1 as [| e o1 IH]; [reflexivity |].
  destruct e; cbn; rewrite IH; reflexivity.
Qed.

Lemma b64_signals_animate_log (bs : list (Bubble Color Brush)) :
  signals (animate_log bs) =
  repeat bubbleLeft (List.length (filter off_screen (map rise bs))).
Proof.
  induction bs as [| b bs IH]; [reflexivity |].
  cbn [animate_log flat_map map filter]. fold (animate_log bs).
  unfold off_screen at 1.
  destruct (on_screen (rise b)); cbn; rewrite IH; reflexivity.
Qed.

(** Adding zero to a double leaves the number it stands for. *)
Lemma value_add_zero (x : float) : value (x + 0)%float = value x.
Proof.
  unfold value. rewrite add_spec.
  change (Prim2SF 0%float) with (S754_zero false).
  destruct (Prim2SF x) as [[|] | [|] | | s m e]; reflexivity.
Qed.

Lemma Qpower_2_pos (e : Z) : 0 < Qpower 2 e.
Proof. apply Qpower_0_lt. reflexivity. Qed.

(** Comparing a double with zero compares the number it stands for. *)
Lemma ltb_zero_value (v : float) (q : Q) :
  value v = Some q -> ((0 <? v)%float = true <-> 0 < q).
Proof.
  unfold value. rewrite ltb_spec.
  change (Prim2SF 0%float) with (S754_zero false).
  destruct (Prim2SF v) as [sz | si | | s m e]; cbn; try discriminate.
  - intros [= <-]. split; [discriminate | intros H; inversion H].
  - intros [= <-].
    assert (Hm : 0 < inject_Z (Zpos m) * Qpower 2 e).
    { apply Qmult_lt_0_compat; [reflexivity | apply Qpower_2_pos]. }
    destruct s; cbn; split; intros H; try reflexivity; try discriminate.
    + exfalso. lra.
    + lra.
Qed.

(** C1, amended.  An animation tick gives every bubble of the collection
    the height that is the binary64 sum of its height and its negated
    speed, and leaves the number its horizontal coordinate stands for;
    the moved bubble is kept iff the binary64 sum of its height and its
    radius is greater than zero, which for a sum that is a number means
    that number is positive, and removed iff it is at most zero;
    [bubbleLeft] is emitted once per removed bubble, and
    [bubblesRemaining], with the new number of bubbles, iff some bubble
    was removed. *)
Theorem animate_binary64 (self : BubblesWidget Color Brush) :
  let r := animate self in
  let removed := filter off_screen (map rise (bubbles self)) in
  (forall b : Bubble Color Brush,
      Prim2SF (fy (position (rise b)))
      = SF64add (Prim2SF (fy (position b))) (SFopp (Prim2SF (speed b))) /\
      value (fx (position (rise b))) = value (fx (position b)) /\
      radius (rise b) = radius b /\ speed (rise b) = speed b) /\
  bubbles (fst r) = filter on_screen (map rise (bubbles self)) /\
  (forall (b : Bubble Color Brush) q,
      value (fy (position b) + radius b)%float = Some q ->
      (on_screen b = true <-> 0 < q) /\
      (off_screen b = true <-> q <= 0)) /\
  signals (snd r) =
    repeat bubbleLeft (List.length removed)
    ++ match removed with
       | [] => []
       | _ :: _ => [bubblesRemaining (len (bubbles (fst r)))]
       end.
Proof.
  cbv zeta. rewrite b64_animate_run. cbn [fst snd bubbles].
  split; [| split; [reflexivity | split]].
  - intros b. unfold rise. cbn [position fx fy radius speed].
    rewrite add_spec, opp_spec, value_add_zero. repeat split.
  - intros b q Hq. pose proof (ltb_zero_value _ q Hq) as Hlt.
    unfold off_screen, on_screen. split; [exact Hlt |].
    rewrite negb_true_iff. split.
    + intros Hf. apply Qnot_lt_le. intros Hpos.
      apply Hlt in Hpos. congruence.
    + intros Hle.
      destruct (0 <? fy (position b) + radius b)%float eqn:E;
        [| reflexivity].
      exfalso. apply (Qlt_not_le 0 q); [apply Hlt; reflexivity | exact Hle].
  - rewrite !b64_signals_app, b64_signals_animate_log. f_equal.
    rewrite existsb_filter_nil.
    destruct (newBubble self); destruct (filter off_screen _); reflexivity.
Qed.

(** C1, the claim as stated fails.  The bubble [grazing] stands at
    201 * 2^-53 with speed 4 + 200 * 2^-53 and radius 4: lowered by
    exactly its speed it would stand at -4 + 2^-53 and, its height plus
    its radius being positive, be kept.  The tick puts it at -4, drops it
    and emits [bubbleLeft]. *)
Lemma animate_not_exact :
  exists y s r y',
    value (fy (position grazing)) = Some y /\
    value (speed grazing) = Some s /\
    value (radius grazing) = Some r /\
    0 < y - s + r /\
    value (fy (position (rise grazing))) = Some y' /\
    ~ y' == y - s /\
    bubbles (fst (animate (mkBubblesWidget [grazing] None))) = [] /\
    signals (snd (animate (mkBubblesWidget [grazing] None)))
    = [bubbleLeft; bubblesRemaining 0].
Proof.
  do 4 eexists.
  split; [vm_compute; reflexivity |].
  split; [vm_compute; reflexivity |].
  split; [vm_compute; reflexivity |].
  split; [vm_compute; reflexivity |].
  split; [vm_compute; reflexivity |].
  split; [vm_compute; discriminate |].
  split; vm_compute; reflexivity.
Qed.

(** A bubble at height 3 with radius 5 and speed 10 is at height -7 after
    a tick and leaves. *)
Example scenario_departure :
  let b := mkBubble (mkQPointF 10 3) 5%float 10%float tt tt tt in
  let r := animate (mkBubblesWidget [b] None) in
  fy (position (rise b)) = (-7)%float /\
  bubbles (fst r) = [] /\
  signals (snd r) = [bubbleLeft; bubblesRemaining 0].
Proof. cbv zeta. repeat split. Qed.

End Binary64Facts.
